(** * SubGames cloud functions: a shallow embedding of functions/index.js

    The Firestore database is a record of collections.  Collections that
    live under a cycle document ([cycles/{cycleId}/picks/{userId}],
    [cycles/{cycleId}/leaderboard/{creatorId}], ...) are maps keyed by the
    pair (cycleId, document id).  Times are milliseconds in [Z]; a request
    sees one clock value.  The leaderboard's time fields keep the Firestore
    type they were written with: a number ([Date.now()] in the client) or
    a Timestamp ([serverTimestamp()] in the functions).  A cloud function is a computation in a
    state and error monad over the database: a write made before a
    [throw] stays in the database, as it does in Firestore. *)

From Stdlib Require Import ZArith QArith Ascii String.
From stdpp Require Import base gmap strings list fin_maps pretty.

Open Scope Z_scope.

(** ** Errors: [functions.https.HttpsError] codes, and the [internal]
    error a callable function reports for any other exception. *)
Inductive Err :=
| Unauthenticated
| NotFound (msg : string)
| AlreadyExists (msg : string)
| PermissionDenied
| DeadlineExceeded (msg : string)
| InvalidArgument (msg : string)
| FailedPrecondition (msg : string)
| ResourceExhausted (minutesLeft : Z)
| Internal (msg : string).

Inductive outcome (A : Type) :=
| Ok (a : A)
| Throw (e : Err).
Arguments Ok {A} a.
Arguments Throw {A} e.

(** ** A state and error monad, over any state (the database, or the
    buffered state of a transaction). *)
Definition ST (S A : Type) := S -> outcome A * S.

Definition ret {S A} (a : A) : ST S A := fun s => (Ok a, s).
Definition throw {S A} (e : Err) : ST S A := fun s => (Throw e, s).
Definition bind {S A B} (m : ST S A) (k : A -> ST S B) : ST S B :=
  fun s => match m s with
           | (Ok a, s') => k a s'
           | (Throw e, s') => (Throw e, s')
           end.
Definition gets {S A} (f : S -> A) : ST S A := fun s => (Ok (f s), s).
Definition modify {S} (f : S -> S) : ST S unit := fun s => (Ok tt, f s).

Notation "x <- m ;; k" := (bind m (fun x => k))
  (at level 100, m at next level, right associativity).
Notation "m ;;; k" := (bind m (fun _ => k)) (at level 100, right associativity).

(** ** Documents *)

Record GameSession := mkSession {
  s_userId : string;
  s_gameType : string;
  s_difficulty : string;
  s_startTime : Z;
  s_used : bool;
  s_expiresAt : Z;
  s_expectedPointValue : Z }.

Record CyclePick := mkPick {
  p_userId : string;
  p_creatorId : string;
  pointsEarned : Z;
  pickedAt : Z;
  lastSwitchedAt : Z;
  switchCount : Z }.

(** A stored time value: a Firestore number or a Firestore Timestamp. *)
Inductive FieldTime :=
| TNumber (ms : Z)
| TTimestamp (ms : Z).

(** Ascending order of Firestore queries on such a field: all numbers sort
    before all Timestamps, each type in its own order. *)
Definition ft_ltb (a b : FieldTime) : bool :=
  match a, b with
  | TNumber x, TNumber y => x <? y
  | TTimestamp x, TTimestamp y => x <? y
  | TNumber _, TTimestamp _ => true
  | TTimestamp _, TNumber _ => false
  end.
Definition ft_le (a b : FieldTime) : Prop := ft_ltb b a = false.

(** The instant a time value denotes. *)
Definition ft_ms (a : FieldTime) : Z :=
  match a with TNumber x | TTimestamp x => x end.

Record LeaderboardEntry := mkEntry {
  e_creatorId : string;
  totalPoints : Z;
  supporterCount : Z;
  supporters : list string;
  firstToReachCurrentScore : FieldTime;
  lastUpdated : FieldTime }.

Record UserDoc := mkUser {
  displayName : option string;
  photoURL : option string;
  promotionalURL : option string;
  totalGamesPlayed : Z;
  totalPointsEarned : Z }.

Record CycleWinner := mkWinner {
  winnerId : string;
  winnerName : string;
  winnerPhotoURL : string;
  w_promotionalURL : string;
  finalScore : Z;
  w_supporterCount : Z;
  firstToReachScore : FieldTime;
  announcedAt : Z;
  cycleStartTime : string;  (** the ISO date the Timestamp is built from *)
  cycleEndTime : Z }.

Record PityEligibility := mkElig {
  el_userId : string;
  eligibleForPityPoint : bool;
  clickedWinnerLink : bool;
  el_winnerId : string;
  theirCreatorId : string;
  clickedAt : option Z }.

(** A document of [cycles/{cycleId}/pityPoints], the collection read by
    [applyPityPoints]. *)
Record PityPoint := mkPity {
  appliedToNextCycle : bool;
  pp_clickedWinnerLink : bool;
  pp_clickedAt : option Z }.

Record StartingBonus := mkBonus {
  b_creatorId : string;
  pityPointsReceived : Z;
  fromSupporters : list string }.

Record RateLimit := mkRate {
  windowStart : Z;
  requestCount : Z;
  lastRequest : Z }.

Record GameResult := mkResult {
  r_userId : string;
  r_sessionId : string;
  r_cycleId : string;
  r_gameType : string;
  r_pointsAwarded : Z;
  r_timeTaken : Z;
  r_completedAt : Z;
  r_tippedToCreator : string }.

Record DB := mkDB {
  gameSessions : gmap string GameSession;
  picks : gmap (string * string) CyclePick;
  leaderboard : gmap (string * string) LeaderboardEntry;
  pityPointsEligible : gmap (string * string) PityEligibility;
  pityPoints : gmap (string * string) PityPoint;
  startingBonuses : gmap (string * string) StartingBonus;
  users : gmap string UserDoc;
  cycleWinners : gmap string CycleWinner;
  rateLimits : gmap string RateLimit;
  gameResults : list GameResult }.

(** Field setters of the database record. *)
Definition set_gameSessions m d := mkDB m (picks d) (leaderboard d) (pityPointsEligible d) (pityPoints d) (startingBonuses d) (users d) (cycleWinners d) (rateLimits d) (gameResults d).
Definition set_picks m d := mkDB (gameSessions d) m (leaderboard d) (pityPointsEligible d) (pityPoints d) (startingBonuses d) (users d) (cycleWinners d) (rateLimits d) (gameResults d).
Definition set_leaderboard m d := mkDB (gameSessions d) (picks d) m (pityPointsEligible d) (pityPoints d) (startingBonuses d) (users d) (cycleWinners d) (rateLimits d) (gameResults d).
Definition set_pityPointsEligible m d := mkDB (gameSessions d) (picks d) (leaderboard d) m (pityPoints d) (startingBonuses d) (users d) (cycleWinners d) (rateLimits d) (gameResults d).
Definition set_pityPoints m d := mkDB (gameSessions d) (picks d) (leaderboard d) (pityPointsEligible d) m (startingBonuses d) (users d) (cycleWinners d) (rateLimits d) (gameResults d).
Definition set_startingBonuses m d := mkDB (gameSessions d) (picks d) (leaderboard d) (pityPointsEligible d) (pityPoints d) m (users d) (cycleWinners d) (rateLimits d) (gameResults d).
Definition set_users m d := mkDB (gameSessions d) (picks d) (leaderboard d) (pityPointsEligible d) (pityPoints d) (startingBonuses d) m (cycleWinners d) (rateLimits d) (gameResults d).
Definition set_cycleWinners m d := mkDB (gameSessions d) (picks d) (leaderboard d) (pityPointsEligible d) (pityPoints d) (startingBonuses d) (users d) m (rateLimits d) (gameResults d).
Definition set_rateLimits m d := mkDB (gameSessions d) (picks d) (leaderboard d) (pityPointsEligible d) (pityPoints d) (startingBonuses d) (users d) (cycleWinners d) m (gameResults d).
Definition set_gameResults l d := mkDB (gameSessions d) (picks d) (leaderboard d) (pityPointsEligible d) (pityPoints d) (startingBonuses d) (users d) (cycleWinners d) (rateLimits d) l.

Definition emptyDB : DB := mkDB ∅ ∅ ∅ ∅ ∅ ∅ ∅ ∅ ∅ [].

(** The request's view of the clock: [now] is [Date.now()] (and the
    server timestamp of its writes); [currentCycleId] is [getCycleId()]
    evaluated at [now]. *)
Record Clock := mkClock { now : Z; currentCycleId : string }.

(** [context.auth]: the caller's uid, if signed in. *)
Definition Context := option string.

Definition M := ST DB.

(** ** checkRateLimit (index.js, lines 8-53) *)

(** [Math.ceil(x / 1000 / 60)] on an integer number of milliseconds. *)
Definition ceil_minutes (x : Z) : Z := - ((- x) / 60000).

Definition checkRateLimit (clk : Clock) (userId action : string)
    (maxRequests windowMinutes : Z) : M unit :=
  let t := now clk in
  let windowMs := windowMinutes * 60 * 1000 in
  let key := (userId +:+ "_" +:+ action)%string in
  rateLimitDoc <- gets (fun d => rateLimits d !! key) ;;
  match rateLimitDoc with
  | Some data =>
      if t - windowStart data <? windowMs then
        if requestCount data >=? maxRequests then
          throw (ResourceExhausted (ceil_minutes (windowMs - (t - windowStart data))))
        else
          modify (fun d => set_rateLimits
            (<[key := mkRate (windowStart data) (requestCount data + 1) t]> (rateLimits d)) d)
      else
        modify (fun d => set_rateLimits (<[key := mkRate t 1 t]> (rateLimits d)) d)
  | None =>
      modify (fun d => set_rateLimits (<[key := mkRate t 1 t]> (rateLimits d)) d)
  end ;;;
  ret tt.

Definition rl_key (userId action : string) : string := (userId +:+ "_" +:+ action)%string.

(** Successive calls of [checkRateLimit] for one (actor, action), at the
    times [ts]; the outcome of each call and the final database. *)
Fixpoint rl_run (userId action : string) (maxRequests windowMinutes : Z)
    (ts : list Z) (db : DB) : list (outcome unit) * DB :=
  match ts with
  | [] => ([], db)
  | t :: ts' =>
      let (o, db') := checkRateLimit (mkClock t "") userId action maxRequests windowMinutes db in
      let (os, db'') := rl_run userId action maxRequests windowMinutes ts' db' in
      (o :: os, db'')
  end.

Definition is_ok {A} (o : outcome A) : bool :=
  match o with Ok _ => true | Throw _ => false end.

(** ** Documents read and written by path *)

Section Docs.
Context {K V : Type} `{Countable K}.

(** [ref.update(...)] outside a transaction: fails on a missing document. *)
Definition db_update (get : DB -> gmap K V) (set : gmap K V -> DB -> DB)
    (k : K) (f : V -> V) : M unit :=
  fun d => match get d !! k with
           | Some v => (Ok tt, set (<[k := f v]> (get d)) d)
           | None => (Throw (Internal "No document to update"), d)
           end.

(** [ref.set(...)]: creates or overwrites. *)
Definition db_set (get : DB -> gmap K V) (set : gmap K V -> DB -> DB)
    (k : K) (v : V) : M unit :=
  modify (fun d => set (<[k := v]> (get d)) d).
End Docs.

(** ** Transactions ([db.runTransaction])

    The body works on the database as of the start of the transaction and
    buffers its writes.  The Node.js Admin SDK refuses a [transaction.get]
    once a write has been issued.  If the body throws, nothing is
    committed and the error reaches the caller. *)
Record Tx := mkTx { tx_db : DB; tx_wrote : bool }.
Definition TxM := ST Tx.

Definition tx_get {A} (f : DB -> A) : TxM A :=
  fun t => if tx_wrote t
           then (Throw (Internal "Firestore transactions require all reads to be executed before all writes."), t)
           else (Ok (f (tx_db t)), t).

Section TxDocs.
Context {K V : Type} `{Countable K}.

Definition tx_update (get : DB -> gmap K V) (set : gmap K V -> DB -> DB)
    (k : K) (f : V -> V) : TxM unit :=
  fun t => match get (tx_db t) !! k with
           | Some v => (Ok tt, mkTx (set (<[k := f v]> (get (tx_db t))) (tx_db t)) true)
           | None => (Throw (Internal "No document to update"), t)
           end.

Definition tx_set (get : DB -> gmap K V) (set : gmap K V -> DB -> DB)
    (k : K) (v : V) : TxM unit :=
  fun t => (Ok tt, mkTx (set (<[k := v]> (get (tx_db t))) (tx_db t)) true).
End TxDocs.

Definition runTransaction {A} (body : TxM A) : M A :=
  fun d => match body (mkTx d false) with
           | (Ok a, t) => (Ok a, tx_db t)
           | (Throw e, _) => (Throw e, d)
           end.

(** ** Game validation constants (index.js, lines 66-73) *)

Record Validation := mkValidation {
  minSeconds : Q;
  maxSeconds : Q;
  points : Z }.

Definition GAME_VALIDATION (gameType : string) : option Validation :=
  if String.eqb gameType "whackAMole" then Some (mkValidation (Qmake 3 1) (Qmake 120 1) 3)
  else if String.eqb gameType "blockBlast" then Some (mkValidation (Qmake 2 1) (Qmake 180 1) 5)
  else if String.eqb gameType "memoryFlip" then Some (mkValidation (Qmake 5 1) (Qmake 150 1) 6)
  else if String.eqb gameType "colorMatch" then Some (mkValidation (Qmake 8 1) (Qmake 200 1) 8)
  else if String.eqb gameType "patternPro" then Some (mkValidation (Qmake 10 1) (Qmake 240 1) 10)
  else if String.eqb gameType "reaction" then Some (mkValidation (Qmake 1 20) (Qmake 60 1) 1)
  else None.

(** [a < b] on the seconds; [actualSeconds] is modelled as the exact
    rational [actualTimeTaken / 1000]. *)
Definition Qltb (a b : Q) : bool := negb (Qle_bool b a).

(** ** startGameSession (index.js, lines 76-106); [sessionId] is the id
    Firestore generates for [collection('gameSessions').doc()]. *)
Definition startGameSession (clk : Clock) (ctx : Context) (sessionId : string)
    (gameType : string) (difficulty : option string) : M string :=
  match ctx with
  | None => throw Unauthenticated
  | Some userId =>
      match GAME_VALIDATION gameType with
      | None => throw (InvalidArgument "Invalid game type")
      | Some v =>
          checkRateLimit clk userId "startGameSession" 30 60 ;;;
          db_set gameSessions set_gameSessions sessionId
            (mkSession userId gameType (default "easy" difficulty) (now clk) false
               (now clk + 10 * 60 * 1000) (points v)) ;;;
          ret sessionId
      end
  end.

(** ** submitGameResult (index.js, lines 109-252)

    The handler is split at its awaits into the checks that precede the
    transaction ([submit_validate]: lines 110-187) and the transaction with
    the writes that follow it ([submit_commit]: lines 189-251), so that two
    overlapping invocations can be interleaved. *)

Record SubmitCtx := mkSubmitCtx {
  sc_userId : string;
  sc_sessionId : string;
  sc_session : GameSession;
  sc_cycleId : string;
  sc_pointsAwarded : Z;
  sc_creatorId : string;
  sc_timeTaken : Z }.

Definition submit_validate (clk : Clock) (ctx : Context) (sessionId : string)
    (timeTaken : Z) : M SubmitCtx :=
  match ctx with
  | None => throw Unauthenticated
  | Some userId =>
  checkRateLimit clk userId "submitGameResult" 30 60 ;;;
  sessionDoc <- gets (fun d => gameSessions d !! sessionId) ;;
  match sessionDoc with
  | None => throw (NotFound "Session not found")
  | Some session =>
  if s_used session then throw (AlreadyExists "Session already used") else
  if negb (String.eqb (s_userId session) userId) then throw PermissionDenied else
  if s_expiresAt session <? now clk then throw (DeadlineExceeded "Session expired") else
  match GAME_VALIDATION (s_gameType session) with
  | None => throw (InvalidArgument "Unknown game type")
  | Some validation =>
  let actualTimeTaken := now clk - s_startTime session in
  let actualSeconds := Qdiv (inject_Z actualTimeTaken) (inject_Z 1000) in
  if Qltb actualSeconds (minSeconds validation)
  then throw (FailedPrecondition "Game completed too quickly") else
  if Qltb (maxSeconds validation) actualSeconds
  then throw (DeadlineExceeded "Game took too long") else
  let cycleId := currentCycleId clk in
  let pointsAwarded := points validation in
  pickDoc <- gets (fun d => picks d !! (cycleId, userId)) ;;
  match pickDoc with
  | None => throw (FailedPrecondition "Must pick a creator first")
  | Some pick =>
      ret (mkSubmitCtx userId sessionId session cycleId pointsAwarded
             (p_creatorId pick) timeTaken)
  end end end end.

Definition add_pick_points (n : Z) (p : CyclePick) : CyclePick :=
  mkPick (p_userId p) (p_creatorId p) (pointsEarned p + n) (pickedAt p)
    (lastSwitchedAt p) (switchCount p).

(** The update of an existing leaderboard entry (lines 215-226). *)
Definition bump_entry (pointsAwarded t : Z) (newSupporter : option string)
    (e : LeaderboardEntry) : LeaderboardEntry :=
  match newSupporter with
  | None =>
      mkEntry (e_creatorId e) (totalPoints e + pointsAwarded) (supporterCount e)
        (supporters e) (firstToReachCurrentScore e) (TTimestamp t)
  | Some u =>
      mkEntry (e_creatorId e) (totalPoints e + pointsAwarded) (supporterCount e + 1)
        (if bool_decide (u ∈ supporters e) then supporters e else supporters e ++ [u])
        (firstToReachCurrentScore e) (TTimestamp t)
  end.

Definition add_user_stats (n : Z) (u : UserDoc) : UserDoc :=
  mkUser (displayName u) (photoURL u) (promotionalURL u)
    (totalGamesPlayed u + 1) (totalPointsEarned u + n).

Definition mark_used (s : GameSession) : GameSession :=
  mkSession (s_userId s) (s_gameType s) (s_difficulty s) (s_startTime s) true
    (s_expiresAt s) (s_expectedPointValue s).

Definition submit_transaction (t : Z) (sc : SubmitCtx) : TxM unit :=
  let cycleId := sc_cycleId sc in
  let userId := sc_userId sc in
  let creatorId := sc_creatorId sc in
  let pointsAwarded := sc_pointsAwarded sc in
  leaderboardDoc <- tx_get (fun d => leaderboard d !! (cycleId, creatorId)) ;;
  tx_update picks set_picks (cycleId, userId) (add_pick_points pointsAwarded) ;;;
  match leaderboardDoc with
  | None =>
      tx_set leaderboard set_leaderboard (cycleId, creatorId)
        (mkEntry creatorId pointsAwarded 1 [userId] (TTimestamp t) (TTimestamp t))
  | Some e =>
      tx_update leaderboard set_leaderboard (cycleId, creatorId)
        (bump_entry pointsAwarded t
           (if bool_decide (userId ∈ supporters e) then None else Some userId))
  end ;;;
  tx_update users set_users userId (add_user_stats pointsAwarded).

Definition submit_commit (clk : Clock) (sc : SubmitCtx) : M (Z * string) :=
  runTransaction (submit_transaction (now clk) sc) ;;;
  db_update gameSessions set_gameSessions (sc_sessionId sc) mark_used ;;;
  modify (fun d => set_gameResults (gameResults d ++
    [mkResult (sc_userId sc) (sc_sessionId sc) (sc_cycleId sc)
       (s_gameType (sc_session sc)) (sc_pointsAwarded sc) (sc_timeTaken sc)
       (now clk) (sc_creatorId sc)]) d) ;;;
  ret (sc_pointsAwarded sc, sc_creatorId sc).

Definition submitGameResult (clk : Clock) (ctx : Context) (sessionId : string)
    (timeTaken : Z) : M (Z * string) :=
  sc <- submit_validate clk ctx sessionId timeTaken ;;
  submit_commit clk sc.

(** ** A concrete database for the examples: player "alice" supports
    creator "bob" in cycle "2025-11-12-18:00"; session "s1" of
    whackAMole was started at time 1000000. *)
Definition K1 : string := "2025-11-12-18:00".
Definition clk_at (t : Z) : Clock := mkClock t K1.

Definition session_s1 : GameSession :=
  mkSession "alice" "whackAMole" "easy" 1000000 false (1000000 + 600000) 3.
Definition pick_alice : CyclePick := mkPick "alice" "bob" 0 0 0 0.

Definition db_alice : DB :=
  mkDB {[ "s1" := session_s1 ]}
       {[ (K1, "alice") := pick_alice ]}
       ∅ ∅ ∅ ∅
       {[ "alice" := mkUser (Some "Alice") None None 0 0;
          "bob" := mkUser (Some "Bob") (Some "bob.png") (Some "https://bob.example") 0 0;
          "carol" := mkUser (Some "Carol") None (Some "https://carol.example") 0 0;
          "dave" := mkUser (Some "Dave") None None 0 0 ]}
       ∅ ∅ [].

(** [db_alice] after alice's first game, played in 10 seconds. *)
Definition db_alice_played : DB :=
  snd (submitGameResult (clk_at 1010000) (Some "alice") "s1" 5 db_alice).

(** Two invocations of [submitGameResult] for one session that overlap:
    both pass their checks before either commits. *)
Definition submit_overlapped (clkA clkB : Clock) (ctxA ctxB : Context)
    (sessionId : string) (ttA ttB : Z) : M ((Z * string) * (Z * string)) :=
  scA <- submit_validate clkA ctxA sessionId ttA ;;
  scB <- submit_validate clkB ctxB sessionId ttB ;;
  rA <- submit_commit clkA scA ;;
  rB <- submit_commit clkB scB ;;
  ret (rA, rB).

(** The same checked submission with another client-reported [timeTaken]. *)
Definition with_timeTaken (sc : SubmitCtx) (timeTaken : Z) : SubmitCtx :=
  mkSubmitCtx (sc_userId sc) (sc_sessionId sc) (sc_session sc) (sc_cycleId sc)
    (sc_pointsAwarded sc) (sc_creatorId sc) timeTaken.

(** ** Winner settlement (index.js, lines 255-311) *)

(** [value || dflt] on an optional string field. *)
Definition or_default (o : option string) (dflt : string) : string :=
  match o with
  | Some s => if String.eqb s "" then dflt else s
  | None => dflt
  end.

(** [data.cycleId || getCycleId(0)] *)
Definition or_current (clk : Clock) (arg : option string) : string :=
  or_default arg (currentCycleId clk).

(** [s.replace(pat, rep)] with a string pattern: the first occurrence. *)
Fixpoint replace_first (pat rep s : string) : string :=
  if String.prefix pat s
  then (rep ++ substring (String.length pat) (String.length s - String.length pat) s)%string
  else match s with
       | EmptyString => s
       | String c s' => String c (replace_first pat rep s')
       end.

(** Order of the winner query: [totalPoints] descending, then
    [firstToReachCurrentScore] ascending, then the document id ascending
    (Firestore's implicit last ordering).  [ranks_before a b] holds when
    [a] comes strictly before [b]. *)
Definition ranks_before (a b : (string * string) * LeaderboardEntry) : bool :=
  let '(ka, ea) := a in
  let '(kb, eb) := b in
  (totalPoints eb <? totalPoints ea) ||
  ((totalPoints ea =? totalPoints eb) &&
   (ft_ltb (firstToReachCurrentScore ea) (firstToReachCurrentScore eb) ||
    (negb (ft_ltb (firstToReachCurrentScore eb) (firstToReachCurrentScore ea)) &&
     match String.compare ka.2 kb.2 with Lt => true | _ => false end))).

(** [.orderBy(...).orderBy(...).limit(1).get()] on
    [cycles/{cycleId}/leaderboard]: the first entry of the cycle in query
    order, if any. *)
Definition query_top_step (cycleId : string)
    (x : (string * string) * LeaderboardEntry)
    (acc : option ((string * string) * LeaderboardEntry)) :
    option ((string * string) * LeaderboardEntry) :=
  if bool_decide (x.1.1 = cycleId) then
    match acc with
    | None => Some x
    | Some b => if ranks_before x b then Some x else Some b
    end
  else acc.

Definition query_top (cycleId : string) (m : gmap (string * string) LeaderboardEntry) :
    option ((string * string) * LeaderboardEntry) :=
  foldr (query_top_step cycleId) None (map_to_list m).

Inductive SettleResult :=
| NoEntries
| Settled (cycleId winnerId : string) (winnerName : option string).

Definition calculateWinnerForCycle (clk : Clock) (cycleId : string) : M SettleResult :=
  leaderboardSnapshot <- gets (fun d => query_top cycleId (leaderboard d)) ;;
  match leaderboardSnapshot with
  | None => ret NoEntries
  | Some (_, winnerData) =>
      let winnerId := e_creatorId winnerData in
      winnerProfile <- gets (fun d => users d !! winnerId) ;;
      match winnerProfile with
      | None => throw (Internal "Cannot read properties of undefined (reading 'displayName')")
      | Some profile =>
          db_set cycleWinners set_cycleWinners cycleId
            (mkWinner winnerId
               (or_default (displayName profile) "Unknown")
               (or_default (photoURL profile) "")
               (or_default (promotionalURL profile) "")
               (totalPoints winnerData) (supporterCount winnerData)
               (firstToReachCurrentScore winnerData)
               (now clk)
               (replace_first "-18:00" "T18:00:00-06:00" cycleId)
               (now clk)) ;;;
          ret (Settled cycleId winnerId (displayName profile))
      end
  end.

(** The scheduled run at 18:00 settles the current cycle. *)
Definition calculateCycleWinner (clk : Clock) : M unit :=
  calculateWinnerForCycle clk (currentCycleId clk) ;;; ret tt.

Definition manualCalculateWinner (clk : Clock) (cycleIdArg : option string) : M SettleResult :=
  calculateWinnerForCycle clk (or_current clk cycleIdArg).

(** ** Pity eligibility (index.js, lines 314-401) *)

(** The eligibility records [batch.set] writes for the picks of [cycleId]
    whose [creatorId] is not [winnerId]; the document id is the pick's. *)
Definition pity_eligible_from (cycleId winnerId : string)
    (ps : gmap (string * string) CyclePick) : gmap (string * string) PityEligibility :=
  map_imap (fun k pickData =>
    if bool_decide (k.1 = cycleId /\ p_creatorId pickData <> winnerId)
    then Some (mkElig k.2 true false winnerId (p_creatorId pickData) None)
    else None) ps.

(** [batch.commit()]: every record is created or overwritten. *)
Definition issue_pity (cycleId winnerId : string) : M Z :=
  count <- gets (fun d => Z.of_nat (size (pity_eligible_from cycleId winnerId (picks d)))) ;;
  modify (fun d => set_pityPointsEligible
    (pity_eligible_from cycleId winnerId (picks d) ∪ pityPointsEligible d) d) ;;;
  ret count.

Definition manualAwardPityPoints (clk : Clock) (cycleIdArg : option string) : M Z :=
  let cycleId := or_current clk cycleIdArg in
  winnerSnap <- gets (fun d => cycleWinners d !! cycleId) ;;
  match winnerSnap with
  | None => throw (NotFound "Winner not found for this cycle")
  | Some winnerData => issue_pity cycleId (winnerId winnerData)
  end.

(** The [onCreate] trigger of [cycleWinners/{cycleId}]. *)
Definition awardPityPoints (cycleId : string) (winnerData : CycleWinner) : M unit :=
  issue_pity cycleId (winnerId winnerData) ;;; ret tt.

(** ** applyPityPoints (index.js, lines 404-489) *)

Definition add_total (n : Z) (e : LeaderboardEntry) : LeaderboardEntry :=
  mkEntry (e_creatorId e) (totalPoints e + n) (supporterCount e) (supporters e)
    (firstToReachCurrentScore e) (lastUpdated e).

Definition add_bonus (userId : string) (b : StartingBonus) : StartingBonus :=
  mkBonus (b_creatorId b) (pityPointsReceived b + 1)
    (if bool_decide (userId ∈ fromSupporters b) then fromSupporters b
     else fromSupporters b ++ [userId]).

Definition mark_applied (t : Z) (p : PityPoint) : PityPoint :=
  mkPity true true (Some t).

Definition applyPityPoints (clk : Clock) (ctx : Context)
    (previousCycleId winnerId : string) : M (Z * string) :=
  match ctx with
  | None => throw Unauthenticated
  | Some userId =>
  pityPointDoc <- gets (fun d => pityPoints d !! (previousCycleId, userId)) ;;
  match pityPointDoc with
  | None => throw (NotFound "No pity point found")
  | Some pityPoint =>
  if appliedToNextCycle pityPoint
  then throw (AlreadyExists "Pity point already applied") else
  let cycleId := currentCycleId clk in
  currentPickDoc <- gets (fun d => picks d !! (cycleId, userId)) ;;
  match currentPickDoc with
  | None => throw (FailedPrecondition "Must pick a creator in current cycle first")
  | Some currentPick =>
      let currentCreatorId := p_creatorId currentPick in
      runTransaction (
        tx_update leaderboard set_leaderboard (cycleId, currentCreatorId) (add_total 1) ;;;
        bonusDoc <- tx_get (fun d => startingBonuses d !! (cycleId, currentCreatorId)) ;;
        match bonusDoc with
        | None =>
            tx_set startingBonuses set_startingBonuses (cycleId, currentCreatorId)
              (mkBonus currentCreatorId 1 [userId])
        | Some _ =>
            tx_update startingBonuses set_startingBonuses (cycleId, currentCreatorId)
              (add_bonus userId)
        end ;;;
        tx_update pityPoints set_pityPoints (previousCycleId, userId)
          (mark_applied (now clk))) ;;;
      ret (1, currentCreatorId)
  end end end.

(** ** clickWinnerLink (index.js, lines 492-562) *)

Inductive ClickResult :=
| NotApplied (message : string)
| Applied (pointsAwarded : Z).

Definition mark_clicked (t : Z) (el : PityEligibility) : PityEligibility :=
  mkElig (el_userId el) (eligibleForPityPoint el) true (el_winnerId el)
    (theirCreatorId el) (Some t).

Definition clickWinnerLink (clk : Clock) (ctx : Context) (cycleId winnerUrl : string) :
    M ClickResult :=
  match ctx with
  | None => throw Unauthenticated
  | Some userId =>
  eligibilityDoc <- gets (fun d => pityPointsEligible d !! (cycleId, userId)) ;;
  match eligibilityDoc with
  | None => ret (NotApplied "Not eligible for pity point")
  | Some eligibilityData =>
  if negb (eligibleForPityPoint eligibilityData)
  then ret (NotApplied "Not eligible for pity point") else
  if clickedWinnerLink eligibilityData
  then ret (NotApplied "Already claimed pity point") else
  userPickDoc <- gets (fun d => picks d !! (cycleId, userId)) ;;
  match userPickDoc with
  | None => ret (NotApplied "No creator pick found")
  | Some userPick =>
      let creatorId := p_creatorId userPick in
      runTransaction (
        tx_update leaderboard set_leaderboard (cycleId, creatorId) (add_total 1) ;;;
        tx_update picks set_picks (cycleId, userId) (add_pick_points 1) ;;;
        tx_update pityPointsEligible set_pityPointsEligible (cycleId, userId)
          (mark_clicked (now clk))) ;;;
      ret (Applied 1)
  end end end.

(** ** Client writes (App.js and AuthContext.js) *)

Definition switch_pick (creatorId : string) (t : Z) (p : CyclePick) : CyclePick :=
  mkPick (p_userId p) creatorId (pointsEarned p) (pickedAt p) t (switchCount p + 1).

Definition add_supporter (uid : string) (e : LeaderboardEntry) : LeaderboardEntry :=
  mkEntry (e_creatorId e) (totalPoints e) (supporterCount e + 1) (supporters e ++ [uid])
    (firstToReachCurrentScore e) (lastUpdated e).

(** [handlePickCreator] (App.js, lines 1105-1156): the player [user] picks
    [creatorId] in the client's current cycle [cycleId] at time [t]. *)
Definition handlePickCreator (t : Z) (cycleId : string) (user : Context)
    (creatorId : string) : M unit :=
  match user with
  | None => ret tt
  | Some uid =>
  pickSnap <- gets (fun d => picks d !! (cycleId, uid)) ;;
  match pickSnap with
  | Some _ => db_update picks set_picks (cycleId, uid) (switch_pick creatorId t)
  | None =>
      db_set picks set_picks (cycleId, uid) (mkPick uid creatorId 0 t t 0) ;;;
      leaderboardSnap <- gets (fun d => leaderboard d !! (cycleId, creatorId)) ;;
      match leaderboardSnap with
      | Some e =>
          if bool_decide (uid ∈ supporters e) then ret tt
          else db_update leaderboard set_leaderboard (cycleId, creatorId) (add_supporter uid)
      | None => ret tt
      end
  end end.

(** Creator onboarding (AuthContext.js, lines 354-372): the creator's
    entry in the client's current cycle, created if absent. *)
Definition registerCreatorEntry (t : Z) (cycleId uid : string) : M unit :=
  leaderboardSnap <- gets (fun d => leaderboard d !! (cycleId, uid)) ;;
  match leaderboardSnap with
  | None =>
      db_set leaderboard set_leaderboard (cycleId, uid)
        (mkEntry uid 0 0 [] (TNumber t) (TNumber t))
  | Some _ => ret tt
  end.


(** ** Concrete histories for the examples *)

(** Creator "carol" is onboarded at 2000000, after bob's entry was created
    by alice's game at 1010000; dave picks carol and plays one game. *)
Definition c5_history : M (Z * string) :=
  registerCreatorEntry 2000000 K1 "carol" ;;;
  handlePickCreator 2050000 K1 (Some "dave") "carol" ;;;
  startGameSession (clk_at 2100000) (Some "dave") "s2" "whackAMole" None ;;;
  submitGameResult (clk_at 2110000) (Some "dave") "s2" 10.

Definition db_tie : DB := snd (c5_history db_alice_played).

(** alice plays a second game, at 1110000, for bob. *)
Definition c9_history : M (Z * string) :=
  startGameSession (clk_at 1100000) (Some "alice") "s3" "whackAMole" None ;;;
  submitGameResult (clk_at 1110000) (Some "alice") "s3" 10.

(** The previous cycle, settled with winner "erin". *)
Definition K0 : string := "2025-11-11-18:00".

(** After the settlement of [K0]: alice supported bob in [K0] (3 points) and
    has the pity eligibility [awardPityPoints] writes for her; in the
    current cycle [K1] she supports carol. *)
Definition db_redeem : DB :=
  mkDB ∅
       {[ (K0, "alice") := mkPick "alice" "bob" 3 0 0 0;
          (K1, "alice") := mkPick "alice" "carol" 0 1300000 1300000 0 ]}
       {[ (K0, "bob") := mkEntry "bob" 3 1 ["alice"] (TTimestamp 10000) (TTimestamp 10000);
          (K0, "erin") := mkEntry "erin" 9 2 ["frank"; "gina"] (TTimestamp 20000) (TTimestamp 30000);
          (K1, "carol") := mkEntry "carol" 0 1 ["alice"] (TNumber 1200000) (TNumber 1200000) ]}
       {[ (K0, "alice") := mkElig "alice" true false "erin" "bob" None ]}
       ∅ ∅ ∅ ∅ ∅ [].

(** ** Point accounting: what the spec's leaderboard conservation compares *)

(** Sum of [pointsEarned] over the picks of cycle [cycleId] that reference
    [creatorId]. *)
Definition picks_points (cycleId creatorId : string)
    (m : gmap (string * string) CyclePick) : Z :=
  map_fold (fun k p acc =>
              if bool_decide (k.1 = cycleId /\ p_creatorId p = creatorId)
              then pointsEarned p + acc else acc) 0 m.

(** [totalPoints] of [LeaderboardEntry(cycleId, creatorId)]; 0 when the
    entry does not exist yet. *)
Definition entry_points (cycleId creatorId : string)
    (m : gmap (string * string) LeaderboardEntry) : Z :=
  match m !! (cycleId, creatorId) with
  | Some e => totalPoints e
  | None => 0
  end.

Definition conserved (d : DB) : Prop :=
  forall cycleId creatorId,
    picks_points cycleId creatorId (picks d) = entry_points cycleId creatorId (leaderboard d).

(** The ledger effect of one award of [n] points by player [u] in cycle
    [cycleId] to creator [c]: the pick and the entry both grow by [n]. *)
Definition ledger_award (d d' : DB) (cycleId u c : string) (n : Z) : Prop :=
  exists pk e',
    picks d !! (cycleId, u) = Some pk /\
    picks d' = <[(cycleId, u) := add_pick_points n pk]> (picks d) /\
    leaderboard d' = <[(cycleId, c) := e']> (leaderboard d) /\
    totalPoints e' = entry_points cycleId c (leaderboard d) + n.

(** ** Proof tactics *)
Ltac unfold_monad :=
  unfold bind, ret, throw, gets, modify, runTransaction, tx_get, tx_update, tx_set,
    db_update, db_set in *.
Tactic Notation "unfold_db" "in" "*" :=
  unfold set_gameSessions, set_picks, set_leaderboard, set_pityPointsEligible,
    set_pityPoints, set_startingBonuses, set_users, set_cycleWinners,
    set_rateLimits, set_gameResults in *.
Ltac cbn_hyps := repeat match goal with H : _ |- _ => progress cbn in H end.

(** ** Dates: [getCycleId] (index.js, lines 56-63) and the client's cycle ids

    A JavaScript [Date] is a time value in milliseconds.  Its calendar
    fields are those ECMA-262 computes from the local time: Day,
    DayFromYear, YearFromTime, MonthFromTime, DateFromTime.  The functions
    run with the UTC time zone; a client's local time is [t + off], for the
    offset [off] (in milliseconds) of its time zone. *)

Definition msPerDay : Z := 86400000.
Definition msPerHour : Z := 3600000.

(** DayFromYear(y) *)
Definition DayFromYear (y : Z) : Z :=
  365 * (y - 1970) + (y - 1969) / 4 - (y - 1901) / 100 + (y - 1601) / 400.

(** DaysInYear(y) *)
Definition DaysInYear (y : Z) : Z :=
  if negb (y mod 4 =? 0) then 365
  else if negb (y mod 100 =? 0) then 366
  else if negb (y mod 400 =? 0) then 365
  else 366.

Definition InLeapYear (y : Z) : Z := DaysInYear y - 365.

(** YearFromTime on a day number: the largest [y] with
    [DayFromYear y <= n], from an estimate corrected by one year each way
    ([YearFromDay_bracket] shows the result is that year). *)
Definition YearFromDay (n : Z) : Z :=
  let y0 := 1970 + (n * 400) / 146097 in
  let y1 := if n <? DayFromYear y0 then y0 - 1 else y0 in
  if DayFromYear (y1 + 1) <=? n then y1 + 1 else y1.

(** Year, month (0-based, MonthFromTime) and date (DateFromTime) of day
    number [n]. *)
Definition ymd_of_day (n : Z) : Z * Z * Z :=
  let y := YearFromDay n in
  let d := n - DayFromYear y in
  let l := InLeapYear y in
  if d <? 31 then (y, 0, d + 1)
  else if d <? 59 + l then (y, 1, d - 30)
  else if d <? 90 + l then (y, 2, d - 58 - l)
  else if d <? 120 + l then (y, 3, d - 89 - l)
  else if d <? 151 + l then (y, 4, d - 119 - l)
  else if d <? 181 + l then (y, 5, d - 150 - l)
  else if d <? 212 + l then (y, 6, d - 180 - l)
  else if d <? 243 + l then (y, 7, d - 211 - l)
  else if d <? 273 + l then (y, 8, d - 242 - l)
  else if d <? 304 + l then (y, 9, d - 272 - l)
  else if d <? 334 + l then (y, 10, d - 303 - l)
  else (y, 11, d - 333 - l).

(** [String(x).padStart(2, '0')] *)
Definition padStart2 (s : string) : string :=
  match String.length s with
  | 0%nat => "00" +:+ s
  | 1%nat => "0" +:+ s
  | _ => s
  end.

(** [padStart2 (pretty k)], and the days of a month, for the lemmas on
    the formatting. *)
Definition two_digits (k : Z) : string := padStart2 (pretty k).
Definition days_1_31 : list Z := map Z.of_nat (seq 1 31).

(** [`${year}-${month}-${day}-18:00`] for the local date of day [n];
    [`${year}`] prints an integer as [pretty] does. *)
Definition cycle_id_of_day (n : Z) : string :=
  let '(y, m, dt) := ymd_of_day n in
  pretty y +:+ "-" +:+ padStart2 (pretty (m + 1)) +:+ "-" +:+ padStart2 (pretty dt) +:+ "-18:00".

(** [getCycleId(daysAgo)] run at time [t] (UTC):
    [now.setDate(now.getDate() - daysAgo)] moves the time value back by
    [daysAgo] whole days. *)
Definition getCycleId (daysAgo t : Z) : string :=
  cycle_id_of_day ((t - daysAgo * msPerDay) / msPerDay).

(** A request of a cloud function at time [t]: [getCycleId()] evaluated then. *)
Definition server_clock (t : Z) : Clock := mkClock t (getCycleId 0 t).

(** [getCurrentCycleId] of App.js (lines 45-52), in a browser whose local
    time is [t + off]. *)
Definition getCurrentCycleId (off t : Z) : string :=
  cycle_id_of_day ((t + off) / msPerDay).

(** The completed cycle of App.js ([loadWinnerAndPityPoints], lines
    256-268, and [handleClickWinnerLink], lines 1259-1269): yesterday's
    local date before 18:00 local time, today's from 18:00 on. *)
Definition completedCycleId (off t : Z) : string :=
  let currentHour := ((t + off) / msPerHour) mod 24 in
  let daysAgo := if currentHour <? 18 then 1 else 0 in
  cycle_id_of_day ((t + off - daysAgo * msPerDay) / msPerDay).

(** US Central Standard Time, UTC-6. *)
Definition CST : Z := -6 * msPerHour.

(** ** cleanupExpiredSessions (index.js, lines 758-774): one batch deletes
    the sessions with [expiresAt < now] and [used == false]. *)
Definition session_expired_unused (t : Z) (s : GameSession) : bool :=
  (s_expiresAt s <? t) && negb (s_used s).

Definition cleanupExpiredSessions (clk : Clock) : M unit :=
  modify (fun d => set_gameSessions
    (filter (fun kv : string * GameSession => session_expired_unused (now clk) kv.2 = false)
       (gameSessions d)) d).

(** ** trackReferralClick (index.js, lines 565-595)

    The click counter is the field [creatorProfile.referralClicks] of
    [users/{creatorId}]; it is kept here beside the database, keyed by the
    user id (absent while the field is absent).  [referralClicks] is the
    collection the function appends to. *)
Record ReferralClick := mkReferralClick {
  rc_creatorId : string;
  clickedBy : string;
  rc_timestamp : Z }.

Record RDB := mkRDB {
  rdb : DB;
  creatorReferralClicks : gmap string Z;
  referralClicks : list ReferralClick }.

Definition RM := ST RDB.

(** A computation on the database, run inside [RM]. *)
Definition lift {A} (m : M A) : RM A :=
  fun r => let (o, d) := m (rdb r) in (o, mkRDB d (creatorReferralClicks r) (referralClicks r)).

(** [data.creatorId] is [None] when absent; [ip] is [context.rawRequest.ip]. *)
Definition trackReferralClick (clk : Clock) (ctx : Context) (ip : string)
    (creatorIdArg : option string) : RM unit :=
  match creatorIdArg with
  | None => throw (InvalidArgument "Creator ID required")
  | Some creatorId =>
  if String.eqb creatorId "" then throw (InvalidArgument "Creator ID required") else
  let identifier := match ctx with Some uid => uid | None => ip end in
  lift (checkRateLimit clk identifier ("referralClick_" +:+ creatorId) 10 60) ;;;
  fun r =>
    match users (rdb r) !! creatorId with
    | None => (Throw (Internal "Failed to track referral"), r)
    | Some _ =>
        (Ok tt,
         mkRDB (rdb r)
           (<[creatorId := default 0 (creatorReferralClicks r !! creatorId) + 1]>
              (creatorReferralClicks r))
           (referralClicks r ++
              [mkReferralClick creatorId
                 (match ctx with Some uid => uid | None => "anonymous" end) (now clk)]))
    end
  end.

(** ** Channel URLs: [channelUrl.match(/<p>([^\/\?]+)/i)[1]]

    Case-insensitive matching canonicalises both characters with
    [toUpperCase]; the patterns are ASCII, so only ASCII letters fold. *)
Definition ascii_upper (c : ascii) : ascii :=
  let n := nat_of_ascii c in
  if (97 <=? n)%nat && (n <=? 122)%nat then ascii_of_nat (n - 32) else c.

Fixpoint prefix_ci (p s : string) : bool :=
  match p, s with
  | EmptyString, _ => true
  | String a p', String b s' => Ascii.eqb (ascii_upper a) (ascii_upper b) && prefix_ci p' s'
  | String _ _, EmptyString => false
  end.

Fixpoint str_drop (n : nat) (s : string) : string :=
  match n, s with
  | O, _ => s
  | S n', String _ s' => str_drop n' s'
  | S _, EmptyString => EmptyString
  end.

(** The longest prefix of [s] without '/' and '?': [[^\/\?]+], greedy. *)
Fixpoint segment (s : string) : string :=
  match s with
  | EmptyString => EmptyString
  | String c s' =>
      if Ascii.eqb c "/" || Ascii.eqb c "?" then EmptyString else String c (segment s')
  end.

(** The leftmost match of [p([^\/\?]+)]; its group. *)
Fixpoint match_group (p s : string) : option string :=
  let here :=
    if prefix_ci p s then
      match segment (str_drop (String.length p) s) with
      | EmptyString => None
      | u => Some u
      end
    else None in
  match here with
  | Some u => Some u
  | None => match s with EmptyString => None | String _ s' => match_group p s' end
  end.

(** [!x] on an optional string: absent or empty. *)
Definition truthy (o : option string) : option string :=
  match o with
  | Some s => if String.eqb s "" then None else Some s
  | None => None
  end.

Record ChannelData := mkChannelData {
  ch_displayName : string;
  ch_photoURL : option string;
  ch_description : string;
  ch_subscriberCount : option string;
  ch_channelId : option string }.

(** ** getTwitchChannelData (index.js, lines 598-675)

    The environment gives the two variables and the [fetch] responses:
    [None] when the request or the JSON decoding throws, otherwise [ok]
    and the body's field. *)
Record TwitchUser := mkTwitchUser {
  display_name : string;
  profile_image_url : string;
  tu_description : option string }.

Record TwitchEnv := mkTwitchEnv {
  TWITCH_CLIENT_ID : option string;
  TWITCH_CLIENT_SECRET : option string;
  (** POST to the token endpoint, by request body: [access_token] *)
  fetch_token : string -> option (bool * option string);
  (** GET of the users endpoint, by URL, [Client-ID] and [Authorization]:
      the [data] array *)
  fetch_users : string -> string -> string -> option (bool * option (list TwitchUser)) }.

(** [`${x}`] of a value that may be undefined. *)
Definition template (o : option string) : string :=
  match o with Some s => s | None => "undefined" end.

Definition getTwitchChannelData (clk : Clock) (env : TwitchEnv) (ctx : Context) (ip : string)
    (channelUrlArg : option string) : M ChannelData :=
  match truthy channelUrlArg with
  | None => throw (InvalidArgument "Channel URL required")
  | Some channelUrl =>
  let identifier := match ctx with Some uid => uid | None => ip end in
  checkRateLimit clk identifier "getTwitchChannelData" 5 10 ;;;
  match truthy (TWITCH_CLIENT_ID env), truthy (TWITCH_CLIENT_SECRET env) with
  | Some clientId, Some clientSecret =>
    match match_group "twitch.tv/" channelUrl with
    | None => throw (InvalidArgument "Invalid Twitch URL format")
    | Some username =>
      match fetch_token env ("client_id=" +:+ clientId +:+ "&client_secret=" +:+ clientSecret
                             +:+ "&grant_type=client_credentials") with
      | None => throw (Internal "Failed to fetch Twitch channel data")
      | Some (false, _) => throw (Internal "Failed to get Twitch OAuth token")
      | Some (true, accessToken) =>
        match fetch_users env ("https://api.twitch.tv/helix/users?login=" +:+ username)
                clientId ("Bearer " +:+ template accessToken) with
        | None => throw (Internal "Failed to fetch Twitch channel data")
        | Some (false, _) => throw (Internal "Failed to fetch Twitch user data")
        | Some (true, (None | Some [])) => throw (NotFound "Twitch channel not found")
        | Some (true, Some (user :: _)) =>
            ret (mkChannelData (display_name user) (Some (profile_image_url user))
                   (default "" (truthy (tu_description user))) None None)
        end
      end
    end
  | _, _ => throw (FailedPrecondition "Twitch API not configured")
  end
  end.

(** ** getYouTubeChannelData (index.js, lines 678-755) *)
Record YouTubeChannel := mkYouTubeChannel {
  yt_id : string;
  title : string;
  thumb_medium : option string;
  thumb_default : option string;
  yt_description : option string;
  subscriberCount : option string }.

Record YouTubeEnv := mkYouTubeEnv {
  YOUTUBE_API_KEY : option string;
  (** GET by URL: the [items] array *)
  fetch_channels : string -> option (bool * option (list YouTubeChannel)) }.

(** The API URL of lines 702-727: a [/channel/] id wins over a name, and a
    [/c/] name over an [@] handle. *)
Definition youtube_api_url (channelUrl apiKey : string) : option string :=
  let username1 := match_group "youtube.com/@" channelUrl in
  let channelId := match_group "youtube.com/channel/" channelUrl in
  let username := match match_group "youtube.com/c/" channelUrl with
                  | Some u => Some u
                  | None => username1
                  end in
  match channelId, username with
  | Some id, _ =>
      Some ("https://www.googleapis.com/youtube/v3/channels?part=snippet,statistics&id="
            +:+ id +:+ "&key=" +:+ apiKey)
  | None, Some u =>
      Some ("https://www.googleapis.com/youtube/v3/channels?part=snippet,statistics&forHandle="
            +:+ u +:+ "&key=" +:+ apiKey)
  | None, None => None
  end.

Definition getYouTubeChannelData (clk : Clock) (env : YouTubeEnv) (ctx : Context) (ip : string)
    (channelUrlArg : option string) : M ChannelData :=
  match truthy channelUrlArg with
  | None => throw (InvalidArgument "Channel URL required")
  | Some channelUrl =>
  let identifier := match ctx with Some uid => uid | None => ip end in
  checkRateLimit clk identifier "getYouTubeChannelData" 5 10 ;;;
  match truthy (YOUTUBE_API_KEY env) with
  | None => throw (FailedPrecondition "YouTube API not configured")
  | Some apiKey =>
    match youtube_api_url channelUrl apiKey with
    | None => throw (InvalidArgument "Invalid YouTube URL format")
    | Some apiUrl =>
      match fetch_channels env apiUrl with
      | None => throw (Internal "Failed to fetch YouTube channel data")
      | Some (false, _) => throw (Internal "Failed to fetch YouTube data")
      | Some (true, (None | Some [])) => throw (NotFound "YouTube channel not found")
      | Some (true, Some (channel :: _)) =>
          ret (mkChannelData (title channel)
                 (match truthy (thumb_medium channel) with
                  | Some u => Some u
                  | None => thumb_default channel
                  end)
                 (default "" (truthy (yt_description channel)))
                 (Some (default "0" (truthy (subscriberCount channel))))
                 (Some (yt_id channel)))
      end
    end
  end
  end.

(** ** Further example databases *)

(** [db_redeem] once the winner of [K0], erin, is recorded. *)
Definition db_redeem_settled : DB :=
  set_cycleWinners
    {[ K0 := mkWinner "erin" "Erin" "" "" 9 2 (TTimestamp 20000) 0 "2025-11-11" 0 ]}
    db_redeem.

(** [db_redeem] with alice's pity point from [K0], not yet applied. *)
Definition db_pity_pending : DB :=
  set_pityPoints {[ (K0, "alice") := mkPity false false None ]} db_redeem.

(** [db_alice] without alice's users document. *)
Definition db_no_alice : DB :=
  set_users (delete "alice" (users db_alice)) db_alice.

(** [db_alice_played] once alice has opened a second whackAMole session. *)
Definition db_alice_s2 : DB :=
  snd (startGameSession (clk_at 1020000) (Some "alice") "s2" "whackAMole" None db_alice_played).

(** [db_alice] once alice has used her 30 submissions of the hour that
    started at time 1000000. *)
Definition db_rl_full : DB :=
  set_rateLimits {[ rl_key "alice" "submitGameResult" := mkRate 1000000 30 1100000 ]} db_alice.

(** A Twitch configuration whose users endpoint knows the login "bobplays". *)
Definition twitch_env_demo : TwitchEnv :=
  mkTwitchEnv (Some "client") (Some "secret") (fun _ => Some (true, Some "token"))
    (fun url _ _ =>
       if String.eqb url "https://api.twitch.tv/helix/users?login=bobplays"
       then Some (true, Some [mkTwitchUser "BobPlays" "https://img.example/bob.png" None])
       else Some (true, Some [])).

(** * Proofs *)
Section RateLimiter.
Variables (userId action : string) (maxRequests windowMinutes : Z).
Let key := rl_key userId action.
Let windowMs := windowMinutes * 60 * 1000.

Lemma checkRateLimit_fresh t db :
  (rateLimits db !! key = None \/
   exists r, rateLimits db !! key = Some r /\ windowMs <= t - windowStart r) ->
  checkRateLimit (mkClock t "") userId action maxRequests windowMinutes db =
  (Ok tt, set_rateLimits (<[key := mkRate t 1 t]> (rateLimits db)) db).
Proof.
  intros [H | (r & H & Hexp)]; unfold checkRateLimit, bind, gets, modify, ret;
    cbn; fold (rl_key userId action); fold key; rewrite H; [reflexivity|].
  fold windowMs. destruct (Z.ltb_spec (t - windowStart r) windowMs); [lia | reflexivity].
Qed.

Lemma checkRateLimit_open t db r :
  rateLimits db !! key = Some r -> t - windowStart r < windowMs ->
  checkRateLimit (mkClock t "") userId action maxRequests windowMinutes db =
  if requestCount r >=? maxRequests
  then (Throw (ResourceExhausted (ceil_minutes (windowMs - (t - windowStart r)))), db)
  else (Ok tt, set_rateLimits
          (<[key := mkRate (windowStart r) (requestCount r + 1) t]> (rateLimits db)) db).
Proof.
  intros H Hw. unfold checkRateLimit, bind, gets, modify, ret, throw;
    cbn; fold (rl_key userId action); fold key; rewrite H.
  fold windowMs. destruct (Z.ltb_spec (t - windowStart r) windowMs); [|lia].
  destruct (requestCount r >=? maxRequests); reflexivity.
Qed.

(** Inside one window opened at [t0] with count [c], the [i]-th further call
    succeeds iff [c + i < maxRequests]; a refused call leaves the count. *)
Lemma rl_run_window ts : forall t0 c l db,
  rateLimits db !! key = Some (mkRate t0 c l) ->
  Forall (fun t => t0 <= t < t0 + windowMs) ts ->
  forall i o, fst (rl_run userId action maxRequests windowMinutes ts db) !! i = Some o ->
  exists t, ts !! i = Some t /\
    (if c + Z.of_nat i <? maxRequests then o = Ok tt
     else o = Throw (ResourceExhausted (ceil_minutes (windowMs - (t - t0))))).
Proof.
  induction ts as [|t ts IH]; intros t0 c l db Hr Hts i o Ho; [discriminate|].
  inversion Hts as [|? ? Ht Hts']; subst.
  cbn [rl_run] in Ho.
  assert (Hw : t - windowStart (mkRate t0 c l) < windowMs) by (cbn; lia).
  pose proof (checkRateLimit_open t db _ Hr Hw) as Hc. rewrite Hc in Ho. cbn in Ho |- *.
  destruct (Z.geb_spec c maxRequests) as [Hge|Hlt].
  - destruct (rl_run userId action maxRequests windowMinutes ts db) as [os db''] eqn:Hrun.
    destruct i as [|i]; cbn in Ho.
    + injection Ho as <-. exists t. split; [reflexivity|].
      destruct (Z.ltb_spec (c + Z.of_nat 0) maxRequests); [lia|]. reflexivity.
    + destruct (IH t0 c l db Hr Hts' i o) as (t' & Ht' & Hres);
        [rewrite Hrun; exact Ho|].
      exists t'. split; [exact Ht'|].
      destruct (Z.ltb_spec (c + Z.of_nat i) maxRequests); [lia|].
      destruct (Z.ltb_spec (c + Z.of_nat (S i)) maxRequests); [lia|exact Hres].
  - set (db' := set_rateLimits _ db) in Ho.
    destruct (rl_run userId action maxRequests windowMinutes ts db') as [os db''] eqn:Hrun.
    destruct i as [|i]; cbn in Ho.
    + injection Ho as <-. exists t. split; [reflexivity|].
      destruct (Z.ltb_spec (c + Z.of_nat 0) maxRequests); [reflexivity|lia].
    + assert (Hr' : rateLimits db' !! key = Some (mkRate t0 (c + 1) t))
        by (subst db'; cbn; apply lookup_insert_eq).
      destruct (IH t0 (c + 1) t db' Hr' Hts' i o) as (t' & Ht' & Hres);
        [rewrite Hrun; exact Ho|].
      exists t'. split; [exact Ht'|].
      replace (c + Z.of_nat (S i)) with (c + 1 + Z.of_nat i) by lia. exact Hres.
Qed.
End RateLimiter.

(** C8. Rate limiter: a call with no window record, or whose window has
    expired, opens a window with count 1 and succeeds; within that window
    the first [maxRequests] calls succeed and every later one fails with
    [resource-exhausted] carrying the minutes left in the window. *)
Theorem checkRateLimit_window_spec (userId action : string)
    (maxRequests windowMinutes t0 : Z) (ts : list Z) (db : DB) :
  1 <= maxRequests ->
  (rateLimits db !! rl_key userId action = None \/
   exists r, rateLimits db !! rl_key userId action = Some r /\
             windowMinutes * 60 * 1000 <= t0 - windowStart r) ->
  Forall (fun t => t0 <= t < t0 + windowMinutes * 60 * 1000) ts ->
  rateLimits (snd (checkRateLimit (mkClock t0 "") userId action maxRequests windowMinutes db))
    !! rl_key userId action = Some (mkRate t0 1 t0) /\
  forall j o,
    fst (rl_run userId action maxRequests windowMinutes (t0 :: ts) db) !! j = Some o ->
    (Z.of_nat j < maxRequests -> o = Ok tt) /\
    (maxRequests <= Z.of_nat j -> exists t, (t0 :: ts) !! j = Some t /\
       o = Throw (ResourceExhausted
                    (ceil_minutes (windowMinutes * 60 * 1000 - (t - t0))))).
Proof.
  intros HN Hfresh Hts.
  pose proof (checkRateLimit_fresh userId action maxRequests windowMinutes t0 db Hfresh) as Hc.
  rewrite Hc. split; [cbn; apply lookup_insert_eq|].
  intros j o Ho. cbn [rl_run] in Ho. rewrite Hc in Ho.
  set (db' := set_rateLimits _ db) in Ho.
  destruct (rl_run userId action maxRequests windowMinutes ts db') as [os db''] eqn:Hrun.
  destruct j as [|i]; cbn in Ho.
  - injection Ho as <-. split; [reflexivity | lia].
  - assert (Hr : rateLimits db' !! rl_key userId action = Some (mkRate t0 1 t0))
      by (subst db'; cbn; apply lookup_insert_eq).
    destruct (rl_run_window userId action maxRequests windowMinutes ts t0 1 t0 db' Hr Hts i o)
      as (t & Ht & Hres); [rewrite Hrun; exact Ho|].
    destruct (Z.ltb_spec (1 + Z.of_nat i) maxRequests).
    + split; [intros _; exact Hres | lia].
    + split; [lia|]. intros _. exists t. split; [exact Ht | exact Hres].
Qed.

Lemma checkRateLimit_window_spec_witness :
  (1 <= 2 /\ rateLimits emptyDB !! rl_key "u1" "startGameSession" = None) /\
  rateLimits (snd (checkRateLimit (mkClock 0 "") "u1" "startGameSession" 2 60 emptyDB))
    !! rl_key "u1" "startGameSession" = Some (mkRate 0 1 0) /\
  forall j o,
    fst (rl_run "u1" "startGameSession" 2 60 [0; 10; 20] emptyDB) !! j = Some o ->
    (Z.of_nat j < 2 -> o = Ok tt) /\
    (2 <= Z.of_nat j -> exists t, [0; 10; 20] !! j = Some t /\
       o = Throw (ResourceExhausted (ceil_minutes (60 * 60 * 1000 - (t - 0))))).
Proof.
  split; [split; [lia | reflexivity]|].
  apply (checkRateLimit_window_spec "u1" "startGameSession" 2 60 0 [10; 20] emptyDB).
  - lia.
  - left. reflexivity.
  - repeat constructor; lia.
Defined.

(** ** submitGameResult: shape of its effects *)

Lemma set_rateLimits_id d : set_rateLimits (rateLimits d) d = d.
Proof. destruct d; reflexivity. Qed.
Lemma checkRateLimit_cases clk u a N W d :
  (exists m, checkRateLimit clk u a N W d = (Throw (ResourceExhausted m), d)) \/
  (exists rl, checkRateLimit clk u a N W d = (Ok tt, set_rateLimits rl d)).
Proof.
  unfold checkRateLimit; unfold_monad; cbn.
  repeat case_match; simplify_eq; eauto.
Qed.
Lemma submit_validate_spec clk ctx sid tt d :
  match submit_validate clk ctx sid tt d with
  | (o, d1) =>
    (exists rl, d1 = set_rateLimits rl d) /\
    (forall sc, o = Ok sc ->
       sc_sessionId sc = sid /\ gameSessions d !! sid = Some (sc_session sc) /\
       s_used (sc_session sc) = false /\ ctx = Some (sc_userId sc) /\
       sc_cycleId sc = currentCycleId clk /\ sc_timeTaken sc = tt /\
       (exists v, GAME_VALIDATION (s_gameType (sc_session sc)) = Some v /\
                  sc_pointsAwarded sc = points v) /\
       exists pk, picks d !! (sc_cycleId sc, sc_userId sc) = Some pk /\
                  p_creatorId pk = sc_creatorId sc) /\
    (forall s, gameSessions d !! sid = Some s -> s_used s = true ->
       o = Throw Unauthenticated \/ (exists m, o = Throw (ResourceExhausted m)) \/
       o = Throw (AlreadyExists "Session already used"))
  end.
Proof.
  unfold submit_validate. destruct ctx as [u|].
  - destruct (checkRateLimit_cases clk u "submitGameResult" 30 60 d) as [[m Hc]|[rl Hc]];
      unfold bind at 1; rewrite Hc.
    + split; [exists (rateLimits d); symmetry; apply set_rateLimits_id|].
      split; [discriminate|]. eauto.
    + unfold_monad. cbn.
      destruct (gameSessions d !! sid) as [s|] eqn:Hs.
      2: { split; [eauto|]. split; [discriminate|]. intros ? [=]. }
      destruct (s_used s) eqn:Hu.
      1: { split; [eauto|]. split; [discriminate|]. intros ? [= <-] _. eauto. }
      repeat case_match; simplify_eq.
      all: split; [eauto|]; split; [|intros ? [= <-]; congruence].
      all: intros sc Hsc; simplify_eq.
      cbn. repeat split; eauto.
  - cbn. split; [exists (rateLimits d); symmetry; apply set_rateLimits_id|]. split; [discriminate|]. eauto.
Qed.
Lemma submit_transaction_spec t sc d :
  match submit_transaction t sc (mkTx d false) with
  | (Ok _, tx') =>
      ledger_award d (tx_db tx') (sc_cycleId sc) (sc_userId sc) (sc_creatorId sc)
        (sc_pointsAwarded sc) /\
      gameSessions (tx_db tx') = gameSessions d
  | (Throw _, _) => True
  end.
Proof.
  unfold submit_transaction; unfold_monad; cbn.
  destruct (picks d !! (sc_cycleId sc, sc_userId sc)) as [pk|] eqn:Hpk; [|exact I].
  cbn. destruct (leaderboard d !! (sc_cycleId sc, sc_creatorId sc)) as [e|] eqn:He; cbn.
  - rewrite He. cbn. destruct (users d !! sc_userId sc); cbn; [|exact I].
    split; [|reflexivity]. do 2 eexists. split_and!; [exact Hpk|reflexivity|reflexivity|].
    unfold entry_points. rewrite He. destruct (bool_decide _); cbn; lia.
  - destruct (users d !! sc_userId sc); cbn; [|exact I].
    split; [|reflexivity]. do 2 eexists. split_and!; [exact Hpk|reflexivity|reflexivity|].
    unfold entry_points. rewrite He. cbn; lia.
Qed.
Lemma ledger_award_ext d d1 d2 K u c n :
  picks d1 = picks d2 -> leaderboard d1 = leaderboard d2 ->
  ledger_award d d1 K u c n -> ledger_award d d2 K u c n.
Proof. unfold ledger_award. intros -> ->. tauto. Qed.

Lemma submit_commit_spec clk sc d :
  match submit_commit clk sc d with
  | (o, d') =>
    (forall r, o = Ok r -> r = (sc_pointsAwarded sc, sc_creatorId sc) /\
       exists s, gameSessions d !! sc_sessionId sc = Some s /\
         gameSessions d' = <[sc_sessionId sc := mark_used s]> (gameSessions d)) /\
    (forall e, o = Throw e -> gameSessions d' = gameSessions d) /\
    ((picks d' = picks d /\ leaderboard d' = leaderboard d) \/
     ledger_award d d' (sc_cycleId sc) (sc_userId sc) (sc_creatorId sc) (sc_pointsAwarded sc))
  end.
Proof.
  unfold submit_commit. unfold bind at 1, runTransaction at 1.
  pose proof (submit_transaction_spec (now clk) sc d) as Htx.
  destruct (submit_transaction (now clk) sc (mkTx d false)) as [[[]|e] tx]; cbn.
  - destruct Htx as [Haw Hgs]. unfold_monad.
    rewrite Hgs. destruct (gameSessions d !! sc_sessionId sc) as [s|] eqn:Hs; cbn.
    + split; [intros r [= <-]; split; [reflexivity|]; exists s; split; reflexivity|].
      split; [discriminate|]. right. eapply ledger_award_ext; [..|exact Haw]; reflexivity.
    + split; [discriminate|]. split; [intros; exact Hgs|].
      right. exact Haw.
  - split; [discriminate|]. split; [reflexivity|]. left; split; reflexivity.
Qed.

(** Two invocations of [submitGameResult] for session "s1" that overlap
    both pass the [used] check before either marks the session, and both
    award the 3 points: the pick and the leaderboard entry grow by 6. *)
Lemma submit_overlapped_double_award :
  match submit_overlapped (clk_at 1010000) (clk_at 1010000) (Some "alice") (Some "alice")
          "s1" 5 5 db_alice with
  | (o, d') =>
      o = Ok ((3, "bob"), (3, "bob")) /\
      picks d' !! (K1, "alice") = Some (mkPick "alice" "bob" 6 0 0 0) /\
      entry_points K1 "bob" (leaderboard d') = 6
  end.
Proof. vm_compute. split_and!; reflexivity. Qed.
Lemma submit_validate_timeTaken clk ctx sid ta ta' d :
  submit_validate clk ctx sid ta d =
  match submit_validate clk ctx sid ta' d with
  | (Ok sc, d1) => (Ok (with_timeTaken sc ta), d1)
  | (Throw e, d1) => (Throw e, d1)
  end.
Proof.
  unfold submit_validate. destruct ctx as [u|]; [|reflexivity].
  unfold bind. destruct (checkRateLimit clk u "submitGameResult" 30 60 d) as [[[]|e] d1]; [|reflexivity].
  unfold_monad. repeat case_match; simplify_eq; reflexivity.
Qed.

Lemma submit_transaction_timeTaken t sc ta :
  submit_transaction t (with_timeTaken sc ta) = submit_transaction t sc.
Proof. destruct sc; reflexivity. Qed.

Lemma submit_commit_timeTaken clk sc ta d :
  let (o, d1) := submit_commit clk sc d in
  let (o', d2) := submit_commit clk (with_timeTaken sc ta) d in
  o = o' /\ gameSessions d1 = gameSessions d2 /\ picks d1 = picks d2 /\
  leaderboard d1 = leaderboard d2 /\ users d1 = users d2.
Proof.
  unfold submit_commit. rewrite submit_transaction_timeTaken.
  remember (runTransaction (submit_transaction (now clk) sc)) as R eqn:HR.
  unfold bind. destruct (R d) as [[[]|e] d1]; cbn; [|tauto].
  unfold db_update. destruct (gameSessions d1 !! sc_sessionId sc); cbn; tauto.
Qed.
Lemma submitGameResult_timeTaken clk ctx sid ta ta' d :
  let (o, d1) := submitGameResult clk ctx sid ta d in
  let (o', d2) := submitGameResult clk ctx sid ta' d in
  o = o' /\ gameSessions d1 = gameSessions d2 /\ picks d1 = picks d2 /\
  leaderboard d1 = leaderboard d2 /\ users d1 = users d2.
Proof.
  unfold submitGameResult. unfold bind.
  rewrite (submit_validate_timeTaken clk ctx sid ta ta' d).
  destruct (submit_validate clk ctx sid ta' d) as [[sc|e] d1]; [|tauto].
  pose proof (submit_commit_timeTaken clk sc ta d1) as H.
  destruct (submit_commit clk sc d1) as [o d2].
  destruct (submit_commit clk (with_timeTaken sc ta) d1) as [o' d3].
  destruct H as (? & ? & ? & ? & ?). split_and!; congruence.
Qed.
Lemma submit_commit_ok clk sc d pk :
  picks d !! (sc_cycleId sc, sc_userId sc) = Some pk ->
  is_Some (users d !! sc_userId sc) -> is_Some (gameSessions d !! sc_sessionId sc) ->
  fst (submit_commit clk sc d) = Ok (sc_pointsAwarded sc, sc_creatorId sc).
Proof.
  intros Hpk [ud Hu] [s Hs].
  unfold submit_commit, submit_transaction; unfold_monad; cbn.
  rewrite Hpk; cbn.
  destruct (leaderboard d !! (sc_cycleId sc, sc_creatorId sc)) as [e|] eqn:He; cbn.
  - rewrite He; cbn. rewrite Hu; cbn. rewrite Hs; reflexivity.
  - rewrite Hu; cbn. rewrite Hs; reflexivity.
Qed.

Lemma submit_validate_checked clk u sid ta d s v pk :
  gameSessions d !! sid = Some s -> s_used s = false -> s_userId s = u ->
  GAME_VALIDATION (s_gameType s) = Some v -> now clk <= s_expiresAt s ->
  fst (checkRateLimit clk u "submitGameResult" 30 60 d) = Ok () ->
  picks d !! (currentCycleId clk, u) = Some pk ->
  exists rl,
  submit_validate clk (Some u) sid ta d =
  (let actualSeconds := Qdiv (inject_Z (now clk - s_startTime s)) (inject_Z 1000) in
   if Qltb actualSeconds (minSeconds v)
   then Throw (FailedPrecondition "Game completed too quickly")
   else if Qltb (maxSeconds v) actualSeconds
   then Throw (DeadlineExceeded "Game took too long")
   else Ok (mkSubmitCtx u sid s (currentCycleId clk) (points v) (p_creatorId pk) ta),
   set_rateLimits rl d).
Proof.
  intros Hs Hu Hown Hv Hexp Hrl Hpk.
  destruct (checkRateLimit_cases clk u "submitGameResult" 30 60 d) as [[m Hc]|[rl Hc]];
    rewrite Hc in Hrl; [discriminate|].
  exists rl. unfold submit_validate. unfold bind at 1. rewrite Hc.
  unfold_monad. cbn. rewrite Hs, Hu, Hown, String.eqb_refl. cbn.
  destruct (Z.ltb_spec (s_expiresAt s) (now clk)); [lia|].
  rewrite Hv. cbn.
  destruct (Qltb _ (minSeconds v)); [reflexivity|].
  destruct (Qltb (maxSeconds v) _); [reflexivity|].
  change (picks (set_rateLimits rl d)) with (picks d). rewrite Hpk. reflexivity.
Qed.
(** C3. Timing gate of [submitGameResult], for whackAMole
    (min 3 s, max 120 s, 3 points), on a session that passes the earlier
    checks and a player with a pick: a server-measured elapsed time
    ([now - startTime]) of 2.9 s is refused as too fast, 3.0 s and 120.0 s
    are accepted and award 3 points, 120.1 s is refused as too slow; and
    the client-supplied [timeTaken] changes neither the outcome nor the
    sessions, picks, leaderboard or user statistics. *)
Theorem submitGameResult_timing_gate clk u sid ta d s pk :
  gameSessions d !! sid = Some s -> s_used s = false -> s_userId s = u ->
  s_gameType s = "whackAMole" -> now clk <= s_expiresAt s ->
  fst (checkRateLimit clk u "submitGameResult" 30 60 d) = Ok () ->
  picks d !! (currentCycleId clk, u) = Some pk -> is_Some (users d !! u) ->
  (now clk - s_startTime s = 2900 ->
     fst (submitGameResult clk (Some u) sid ta d) =
     Throw (FailedPrecondition "Game completed too quickly")) /\
  (now clk - s_startTime s = 3000 \/ now clk - s_startTime s = 120000 ->
     fst (submitGameResult clk (Some u) sid ta d) = Ok (3, p_creatorId pk)) /\
  (now clk - s_startTime s = 120100 ->
     fst (submitGameResult clk (Some u) sid ta d) =
     Throw (DeadlineExceeded "Game took too long")) /\
  (forall ta',
     let (o, d1) := submitGameResult clk (Some u) sid ta d in
     let (o', d2) := submitGameResult clk (Some u) sid ta' d in
     o = o' /\ gameSessions d1 = gameSessions d2 /\ picks d1 = picks d2 /\
     leaderboard d1 = leaderboard d2 /\ users d1 = users d2).
Proof.
  intros Hs Hu Hown Hg Hexp Hrl Hpk Husr.
  assert (Hv : GAME_VALIDATION (s_gameType s) = Some (mkValidation (Qmake 3 1) (Qmake 120 1) 3))
    by (rewrite Hg; reflexivity).
  destruct (submit_validate_checked clk u sid ta d s _ pk Hs Hu Hown Hv Hexp Hrl Hpk)
    as [rl Hval].
  unfold submitGameResult.
  split_and!.
  - intros He. unfold bind. rewrite Hval, He. reflexivity.
  - intros He. unfold bind. rewrite Hval.
    assert (Hok : forall el, el = 3000 \/ el = 120000 ->
      Qltb (Qdiv (inject_Z el) (inject_Z 1000)) (Qmake 3 1) = false /\
      Qltb (Qmake 120 1) (Qdiv (inject_Z el) (inject_Z 1000)) = false)
      by (intros el [-> | ->]; split; reflexivity).
    destruct (Hok _ He) as [H1 H2]. cbn zeta. cbn [minSeconds maxSeconds points].
    rewrite H1, H2.
    apply (submit_commit_ok clk (mkSubmitCtx u sid s (currentCycleId clk) 3 (p_creatorId pk) ta)
             (set_rateLimits rl d) pk); cbn.
    + exact Hpk.
    + exact Husr.
    + rewrite Hs; eauto.
  - intros He. unfold bind. rewrite Hval, He. reflexivity.
  - intros ta'. apply submitGameResult_timeTaken.
Qed.


Lemma submitGameResult_timing_gate_witness :
  fst (submitGameResult (clk_at 1003000) (Some "alice") "s1" 5 db_alice) = Ok (3, "bob") /\
  fst (submitGameResult (clk_at 1002900) (Some "alice") "s1" 5 db_alice) =
    Throw (FailedPrecondition "Game completed too quickly").
Proof.
  split.
  - refine (proj1 (proj2 (submitGameResult_timing_gate (clk_at 1003000) "alice" "s1" 5
              db_alice session_s1 pick_alice _ _ _ _ _ _ _ _)) _).
    all: try (vm_compute; reflexivity).
    + cbn; lia.
    + eexists; vm_compute; reflexivity.
    + left; reflexivity.
  - refine (proj1 (submitGameResult_timing_gate (clk_at 1002900) "alice" "s1" 5
              db_alice session_s1 pick_alice _ _ _ _ _ _ _ _) _).
    all: try (vm_compute; reflexivity).
    + cbn; lia.
    + eexists; vm_compute; reflexivity.
Defined.
Lemma ft_le_refl a : ft_le a a.
Proof. unfold ft_le; destruct a; cbn; apply Z.ltb_irrefl. Qed.
Lemma ft_le_trans a b c : ft_le a b -> ft_le b c -> ft_le a c.
Proof.
  unfold ft_le; destruct a, b, c; cbn; rewrite ?Z.ltb_ge; try lia; discriminate.
Qed.
Lemma ft_ltb_le a b : ft_ltb a b = true -> ft_le a b.
Proof.
  unfold ft_le; destruct a, b; cbn; rewrite ?Z.ltb_lt, ?Z.ltb_ge; try lia; discriminate.
Qed.

Lemma ranks_before_cases x b :
  (ranks_before x b = true ->
     totalPoints b.2 < totalPoints x.2 \/
     (totalPoints x.2 = totalPoints b.2 /\
      ft_le (firstToReachCurrentScore x.2) (firstToReachCurrentScore b.2))) /\
  (ranks_before x b = false ->
     totalPoints x.2 < totalPoints b.2 \/
     (totalPoints x.2 = totalPoints b.2 /\
      ft_le (firstToReachCurrentScore b.2) (firstToReachCurrentScore x.2))).
Proof.
  destruct x as [kx ex], b as [kb eb]; cbn. split.
  - intros H. apply orb_true_iff in H as [H|H]; [left; lia|].
    apply andb_true_iff in H as [Heq H]. apply Z.eqb_eq in Heq. right. split; [exact Heq|].
    apply orb_true_iff in H as [H|H]; [now apply ft_ltb_le|].
    apply andb_true_iff in H as [H _]. apply negb_true_iff in H.
    unfold ft_le. exact H.
  - intros H. apply orb_false_iff in H as [H1 H2]. apply Z.ltb_ge in H1.
    destruct (Z.eqb_spec (totalPoints ex) (totalPoints eb)) as [Heq|]; [|left; lia].
    right. split; [exact Heq|]. cbn in H2.
    apply orb_false_iff in H2 as [H2 _]. unfold ft_le. exact H2.
Qed.

Lemma query_top_list cycleId l :
  match foldr (query_top_step cycleId) None l with
  | None => forall x, x ∈ l -> x.1.1 <> cycleId
  | Some b => b ∈ l /\ b.1.1 = cycleId /\
      forall x, x ∈ l -> x.1.1 = cycleId ->
        totalPoints x.2 < totalPoints b.2 \/
        (totalPoints x.2 = totalPoints b.2 /\
         ft_le (firstToReachCurrentScore b.2) (firstToReachCurrentScore x.2))
  end.
Proof.
  induction l as [|x l IH]; cbn.
  - intros x Hx. inversion Hx.
  - unfold query_top_step at 1. destruct (foldr (query_top_step cycleId) None l) as [b|] eqn:Hf.
    + destruct IH as (Hb & Hbc & Hmax).
      case_bool_decide as Hx.
      * destruct (ranks_before x b) eqn:Hr.
        -- apply ranks_before_cases in Hr.
           split; [constructor|]. split; [exact Hx|].
           intros y Hy Hyc. apply elem_of_cons in Hy as [->|Hy].
           ++ right. split; [reflexivity|]. apply ft_le_refl.
           ++ specialize (Hmax y Hy Hyc).
              destruct Hr as [Hr|[Hr1 Hr2]], Hmax as [Hm|[Hm1 Hm2]]; try lia.
              right. split; [lia|]. eapply ft_le_trans; eassumption.
        -- apply ranks_before_cases in Hr.
           split; [by constructor|]. split; [exact Hbc|].
           intros y Hy Hyc. apply elem_of_cons in Hy as [->|Hy]; [exact Hr|].
           exact (Hmax y Hy Hyc).
      * split; [by constructor|]. split; [exact Hbc|].
        intros y Hy Hyc. apply elem_of_cons in Hy as [->|Hy]; [contradiction|].
        exact (Hmax y Hy Hyc).
    + case_bool_decide as Hx.
      * split; [constructor|]. split; [exact Hx|].
        intros y Hy Hyc. apply elem_of_cons in Hy as [->|Hy].
        -- right. split; [reflexivity|]. apply ft_le_refl.
        -- exfalso. exact (IH y Hy Hyc).
      * intros y Hy. apply elem_of_cons in Hy as [->|Hy]; [exact Hx|]. exact (IH y Hy).
Qed.

Lemma query_top_spec cycleId m :
  match query_top cycleId m with
  | None => forall k e, m !! k = Some e -> k.1 <> cycleId
  | Some (k, e) => m !! k = Some e /\ k.1 = cycleId /\
      forall k' e', m !! k' = Some e' -> k'.1 = cycleId ->
        totalPoints e' < totalPoints e \/
        (totalPoints e' = totalPoints e /\
         ft_le (firstToReachCurrentScore e) (firstToReachCurrentScore e'))
  end.
Proof.
  unfold query_top. pose proof (query_top_list cycleId (map_to_list m)) as H.
  destruct (foldr _ None _) as [[k e]|].
  - destruct H as (Hin & Hc & Hmax). apply elem_of_map_to_list in Hin.
    split; [exact Hin|]. split; [exact Hc|].
    intros k' e' Hk' Hc'. apply (Hmax (k', e')); [|exact Hc'].
    by apply elem_of_map_to_list.
  - intros k e Hk. apply (H (k, e)). by apply elem_of_map_to_list.
Qed.
(** C5.  Settlement of a cycle whose leaderboard creators all have a user
    document.  With no entry for the cycle it reports [NoEntries] and writes
    nothing.  Otherwise it selects an entry of the cycle and writes the
    [CycleWinner] record under [cycleId], with the entry's creator,
    [totalPoints] and [supporterCount]; no entry of the cycle has more
    points, and an entry with as many points does not sort before it on
    [firstToReachCurrentScore] in Firestore's ascending order ([ft_le]),
    where every number sorts before every Timestamp. *)
Theorem calculateWinnerForCycle_spec clk cycleId d :
  map_Forall (fun k e => k.1 = cycleId -> is_Some (users d !! e_creatorId e)) (leaderboard d) ->
  ((forall k e, leaderboard d !! k = Some e -> k.1 <> cycleId) ->
     calculateWinnerForCycle clk cycleId d = (Ok NoEntries, d)) /\
  (forall k0 e0, leaderboard d !! k0 = Some e0 -> k0.1 = cycleId ->
     exists k e w nm,
       leaderboard d !! k = Some e /\ k.1 = cycleId /\
       calculateWinnerForCycle clk cycleId d =
         (Ok (Settled cycleId (e_creatorId e) nm),
          set_cycleWinners (<[cycleId := w]> (cycleWinners d)) d) /\
       winnerId w = e_creatorId e /\ finalScore w = totalPoints e /\
       w_supporterCount w = supporterCount e /\
       firstToReachScore w = firstToReachCurrentScore e /\
       forall k' e', leaderboard d !! k' = Some e' -> k'.1 = cycleId ->
         totalPoints e' < totalPoints e \/
         (totalPoints e' = totalPoints e /\
          ft_le (firstToReachCurrentScore e) (firstToReachCurrentScore e'))).
Proof.
  intros Husers.
  pose proof (query_top_spec cycleId (leaderboard d)) as Hq.
  unfold calculateWinnerForCycle; unfold_monad; cbn.
  destruct (query_top cycleId (leaderboard d)) as [[k e]|].
  - destruct Hq as (Hk & Hc & Hmax). split.
    + intros Hnone. exfalso. exact (Hnone k e Hk Hc).
    + intros _ _ _ _.
      destruct (Husers k e Hk Hc) as [profile Hp]. rewrite Hp. cbn.
      eexists k, e, _, _. split_and!; try reflexivity; eauto.
  - split; [reflexivity|].
    intros k0 e0 Hk0 Hc0. exfalso. exact (Hq k0 e0 Hk0 Hc0).
Qed.
Lemma picks_points_insert cycleId creatorId m k pk pk' :
  m !! k = Some pk ->
  picks_points cycleId creatorId (<[k := pk']> m) =
  picks_points cycleId creatorId m
  - (if bool_decide (k.1 = cycleId /\ p_creatorId pk = creatorId) then pointsEarned pk else 0)
  + (if bool_decide (k.1 = cycleId /\ p_creatorId pk' = creatorId) then pointsEarned pk' else 0).
Proof.
  intros Hk. unfold picks_points.
  assert (Hcomm : forall (m0 : gmap (string * string) CyclePick) j1 j2 z1 z2 y,
    j1 <> j2 -> m0 !! j1 = Some z1 -> m0 !! j2 = Some z2 ->
    (fun k p acc => if bool_decide (k.1 = cycleId /\ p_creatorId p = creatorId)
                    then pointsEarned p + acc else acc) j1 z1
      ((fun k p acc => if bool_decide (k.1 = cycleId /\ p_creatorId p = creatorId)
                       then pointsEarned p + acc else acc) j2 z2 y) =
    (fun k p acc => if bool_decide (k.1 = cycleId /\ p_creatorId p = creatorId)
                    then pointsEarned p + acc else acc) j2 z2
      ((fun k p acc => if bool_decide (k.1 = cycleId /\ p_creatorId p = creatorId)
                       then pointsEarned p + acc else acc) j1 z1 y)).
  { intros. cbv beta. repeat case_bool_decide; lia. }
  rewrite <- insert_delete_eq.
  rewrite (map_fold_delete_L _ _ k pk m); [|intros; eapply Hcomm; eauto|exact Hk].
  rewrite map_fold_insert_L; [|intros; eapply Hcomm; eauto|apply lookup_delete_eq].
  cbv beta. repeat case_bool_decide; lia.
Qed.

Lemma entry_points_insert cycleId creatorId m k e :
  entry_points cycleId creatorId (<[k := e]> m) =
  if bool_decide (k = (cycleId, creatorId)) then totalPoints e
  else entry_points cycleId creatorId m.
Proof.
  unfold entry_points. case_bool_decide as Hk.
  - subst. by rewrite lookup_insert_eq.
  - rewrite lookup_insert_ne; [reflexivity|congruence].
Qed.

Lemma conserved_award d d' K u c n pk e' :
  conserved d -> picks d !! (K, u) = Some pk -> p_creatorId pk = c ->
  picks d' = <[(K, u) := add_pick_points n pk]> (picks d) ->
  leaderboard d' = <[(K, c) := e']> (leaderboard d) ->
  totalPoints e' = entry_points K c (leaderboard d) + n ->
  conserved d'.
Proof.
  intros Hc Hpk Hcr Hp Hl Ht K' C'.
  rewrite Hp, Hl, (picks_points_insert _ _ _ _ pk); [|exact Hpk].
  rewrite entry_points_insert, Hc. cbn. subst c.
  repeat case_bool_decide; simplify_eq; try (exfalso; naive_solver); try lia.
Qed.

Lemma conserved_ledger_award d d' K u n pk :
  conserved d -> picks d !! (K, u) = Some pk ->
  ledger_award d d' K u (p_creatorId pk) n -> conserved d'.
Proof.
  intros Hc Hpk (pk' & e' & Hpk' & Hp & Hl & Ht). rewrite Hpk in Hpk'. injection Hpk' as <-.
  eapply conserved_award; eauto.
Qed.
Lemma clickWinnerLink_cases clk u K url d :
  clickWinnerLink clk (Some u) K url d =
  match pityPointsEligible d !! (K, u) with
  | None => (Ok (NotApplied "Not eligible for pity point"), d)
  | Some el =>
    if negb (eligibleForPityPoint el) then (Ok (NotApplied "Not eligible for pity point"), d)
    else if clickedWinnerLink el then (Ok (NotApplied "Already claimed pity point"), d)
    else match picks d !! (K, u) with
    | None => (Ok (NotApplied "No creator pick found"), d)
    | Some pk =>
      match leaderboard d !! (K, p_creatorId pk) with
      | None => (Throw (Internal "No document to update"), d)
      | Some e =>
        (Ok (Applied 1),
         set_pityPointsEligible (<[(K, u) := mark_clicked (now clk) el]> (pityPointsEligible d))
           (set_picks (<[(K, u) := add_pick_points 1 pk]> (picks d))
              (set_leaderboard (<[(K, p_creatorId pk) := add_total 1 e]> (leaderboard d)) d)))
      end end end.
Proof.
  unfold clickWinnerLink; unfold_monad; cbn.
  destruct (pityPointsEligible d !! (K, u)) as [el|] eqn:Hel; cbn; [|reflexivity].
  destruct (eligibleForPityPoint el), (clickedWinnerLink el); cbn; try reflexivity.
  destruct (picks d !! (K, u)) as [pk|] eqn:Hpk; cbn; [|reflexivity].
  destruct (leaderboard d !! (K, p_creatorId pk)) as [e|] eqn:He; cbn; [|reflexivity].
  rewrite Hpk; cbn. rewrite Hel; cbn. reflexivity.
Qed.

Lemma applyPityPoints_throws clk ctx K w d :
  exists e, applyPityPoints clk ctx K w d = (Throw e, d).
Proof.
  unfold applyPityPoints; destruct ctx as [u|]; unfold_monad; cbn; [|eauto].
  destruct (pityPoints d !! (K, u)) as [pp|]; cbn; [|eauto].
  destruct (appliedToNextCycle pp); cbn; [eauto|].
  destruct (picks d !! (currentCycleId clk, u)) as [pk|]; cbn; [|eauto].
  destruct (leaderboard d !! (currentCycleId clk, p_creatorId pk)); cbn; eauto.
Qed.

Lemma issue_pity_run K w d :
  issue_pity K w d =
  (Ok (Z.of_nat (size (pity_eligible_from K w (picks d)))),
   set_pityPointsEligible (pity_eligible_from K w (picks d) ∪ pityPointsEligible d) d).
Proof. reflexivity. Qed.

Lemma pity_eligible_from_lookup K w ps u pk :
  ps !! (K, u) = Some pk -> p_creatorId pk <> w ->
  pity_eligible_from K w ps !! (K, u) = Some (mkElig u true false w (p_creatorId pk) None).
Proof.
  intros Hpk Hw. unfold pity_eligible_from. rewrite map_lookup_imap, Hpk. cbn.
  rewrite bool_decide_true; [reflexivity|]. cbn. split; [reflexivity|exact Hw].
Qed.

Lemma issue_pity_eligible K w d u pk :
  picks d !! (K, u) = Some pk -> p_creatorId pk <> w ->
  pityPointsEligible (snd (issue_pity K w d)) !! (K, u) =
    Some (mkElig u true false w (p_creatorId pk) None) /\
  pityPoints (snd (issue_pity K w d)) = pityPoints d.
Proof.
  intros Hpk Hw. rewrite issue_pity_run. cbn. split; [|reflexivity].
  apply lookup_union_Some_l. by apply pity_eligible_from_lookup.
Qed.
Lemma conserved_ext d d' :
  picks d' = picks d -> leaderboard d' = leaderboard d -> conserved d -> conserved d'.
Proof. intros Hp Hl Hc K C. rewrite Hp, Hl. apply Hc. Qed.

Lemma submitGameResult_conserved clk ctx sid tt d :
  conserved d -> conserved (snd (submitGameResult clk ctx sid tt d)).
Proof.
  intros Hc. pose proof (submit_validate_spec clk ctx sid tt d) as Hv.
  unfold submitGameResult, bind.
  destruct (submit_validate clk ctx sid tt d) as [[sc|e] d1];
    destruct Hv as [[rl ->] [Hok _]]; cbn.
  - destruct (Hok sc eq_refl) as (_ & _ & _ & _ & _ & _ & _ & pk & Hpk & Hcr).
    assert (Hc1 : conserved (set_rateLimits rl d)) by (eapply conserved_ext; [..|exact Hc]; reflexivity).
    pose proof (submit_commit_spec clk sc (set_rateLimits rl d)) as Hs.
    destruct (submit_commit clk sc (set_rateLimits rl d)) as [o d2]; cbn.
    destruct Hs as (_ & _ & [[Hp Hl]|Haw]).
    + eapply conserved_ext; eassumption.
    + rewrite <- Hcr in Haw. eapply conserved_ledger_award; [exact Hc1| |exact Haw]. exact Hpk.
  - eapply conserved_ext; [..|exact Hc]; reflexivity.
Qed.

Lemma clickWinnerLink_conserved clk ctx K url d :
  conserved d -> conserved (snd (clickWinnerLink clk ctx K url d)).
Proof.
  intros Hc. destruct ctx as [u|]; [|exact Hc].
  rewrite clickWinnerLink_cases.
  destruct (pityPointsEligible d !! (K, u)) as [el|]; [|exact Hc].
  destruct (eligibleForPityPoint el), (clickedWinnerLink el); cbn; try exact Hc.
  destruct (picks d !! (K, u)) as [pk|] eqn:Hpk; [|exact Hc].
  destruct (leaderboard d !! (K, p_creatorId pk)) as [e|] eqn:He; [|exact Hc].
  eapply (conserved_award d _ K u (p_creatorId pk) 1 pk (add_total 1 e)); try reflexivity; auto.
  cbn. unfold entry_points. rewrite He. reflexivity.
Qed.

(** C2 (amended).  Leaderboard conservation (for every cycle [K] and
    creator [C], the sum of [pointsEarned] over the picks of [K] that
    reference [C] equals [totalPoints] of the entry [(K, C)], 0 when it
    does not exist) is preserved by a [submitGameResult] call and by a
    [clickWinnerLink] call; [applyPityPoints] leaves the database as it
    was (it always throws). *)
Theorem leaderboard_conservation_preserved d :
  conserved d ->
  (forall clk ctx sid tt, conserved (snd (submitGameResult clk ctx sid tt d))) /\
  (forall clk ctx K url, conserved (snd (clickWinnerLink clk ctx K url d))) /\
  (forall clk ctx K w, snd (applyPityPoints clk ctx K w d) = d).
Proof.
  intros Hc. split_and!.
  - intros. by apply submitGameResult_conserved.
  - intros. by apply clickWinnerLink_conserved.
  - intros. destruct (applyPityPoints_throws clk ctx K w d) as [e ->]. reflexivity.
Qed.

Lemma conserved_db_alice : conserved db_alice.
Proof.
  intros K C. unfold picks_points, entry_points. cbn.
  rewrite map_fold_singleton. case_bool_decide; reflexivity.
Qed.

Lemma leaderboard_conservation_preserved_witness :
  conserved db_alice /\ conserved (snd (submitGameResult (clk_at 1010000) (Some "alice") "s1" 5 db_alice)).
Proof.
  split; [apply conserved_db_alice|].
  exact (proj1 (leaderboard_conservation_preserved db_alice conserved_db_alice)
           (clk_at 1010000) (Some "alice") "s1" 5).
Defined.

(** C2 counterexample.  After alice's game, bob's entry and the picks
    supporting bob both count 3 points; alice then switches her pick to
    carol.  The pick keeps its 3 points and now counts for carol, bob's
    entry still has 3 points: conservation fails for bob and for carol. *)
Lemma handlePickCreator_breaks_conservation :
  conserved db_alice_played /\
  let d' := snd (handlePickCreator 1020000 K1 (Some "alice") "carol" db_alice_played) in
  picks_points K1 "bob" (picks d') = 0 /\ entry_points K1 "bob" (leaderboard d') = 3 /\
  picks_points K1 "carol" (picks d') = 3 /\ entry_points K1 "carol" (leaderboard d') = 0 /\
  ~ conserved d'.
Proof.
  split; [apply submitGameResult_conserved, conserved_db_alice|].
  cbn zeta. split_and!; [vm_compute; reflexivity ..|].
  intros H. specialize (H K1 "bob"). vm_compute in H. discriminate.
Qed.
(** C4.  What [clickWinnerLink] does for an eligible, unclaimed record of
    the cycle [cycleId] it is given: the pick it requires and increments,
    and the leaderboard entry it increments, are those of that same
    [cycleId] (the settled cycle the client passes); the current cycle
    [currentCycleId clk] plays no part. *)
Theorem clickWinnerLink_credits_given_cycle clk u cycleId url d el pk e :
  pityPointsEligible d !! (cycleId, u) = Some el ->
  eligibleForPityPoint el = true -> clickedWinnerLink el = false ->
  picks d !! (cycleId, u) = Some pk ->
  leaderboard d !! (cycleId, p_creatorId pk) = Some e ->
  clickWinnerLink clk (Some u) cycleId url d =
  (Ok (Applied 1),
   set_pityPointsEligible (<[(cycleId, u) := mark_clicked (now clk) el]> (pityPointsEligible d))
     (set_picks (<[(cycleId, u) := add_pick_points 1 pk]> (picks d))
        (set_leaderboard (<[(cycleId, p_creatorId pk) := add_total 1 e]> (leaderboard d)) d))).
Proof.
  intros Hel Helig Hclk Hpk He. rewrite clickWinnerLink_cases, Hel, Helig, Hclk. cbn.
  rewrite Hpk, He. reflexivity.
Qed.

Lemma clickWinnerLink_credits_given_cycle_witness :
  fst (clickWinnerLink (clk_at 1500000) (Some "alice") K0 "https://erin.example" db_redeem) =
  Ok (Applied 1).
Proof.
  rewrite (clickWinnerLink_credits_given_cycle (clk_at 1500000) "alice" K0 "https://erin.example"
             db_redeem (mkElig "alice" true false "erin" "bob" None) (mkPick "alice" "bob" 3 0 0 0)
             (mkEntry "bob" 3 1 ["alice"] (TTimestamp 10000) (TTimestamp 10000)));
    [reflexivity|vm_compute; reflexivity ..].
Defined.

(** The settled cycle [K0] is credited: alice's eligibility and pick in
    [K0] are used, bob's [K0] entry and her [K0] pick grow by 1, while
    carol's entry and alice's pick in the current cycle [K1] stay at 0. *)
Lemma clickWinnerLink_credits_settled_cycle :
  currentCycleId (clk_at 1500000) = K1 /\
  let d' := snd (clickWinnerLink (clk_at 1500000) (Some "alice") K0 "https://erin.example" db_redeem) in
  fst (clickWinnerLink (clk_at 1500000) (Some "alice") K0 "https://erin.example" db_redeem) =
    Ok (Applied 1) /\
  entry_points K0 "bob" (leaderboard d') = 4 /\
  entry_points K1 "carol" (leaderboard d') = 0 /\
  option_map pointsEarned (picks d' !! (K0, "alice")) = Some 4 /\
  option_map pointsEarned (picks d' !! (K1, "alice")) = Some 0.
Proof. split; [reflexivity|]. vm_compute. split_and!; reflexivity. Qed.

Lemma calculateWinnerForCycle_spec_witness :
  exists k e w nm,
    leaderboard db_tie !! k = Some e /\
    calculateWinnerForCycle (clk_at 3000000) K1 db_tie =
      (Ok (Settled K1 (e_creatorId e) nm), set_cycleWinners (<[K1 := w]> (cycleWinners db_tie)) db_tie).
Proof.
  destruct (calculateWinnerForCycle_spec (clk_at 3000000) K1 db_tie) as [_ H].
  - apply map_Forall_to_list. vm_compute.
    repeat constructor; intros _; eexists; reflexivity.
  - destruct (H (K1, "bob") (mkEntry "bob" 3 1 ["alice"] (TTimestamp 1010000) (TTimestamp 1010000)))
      as (k & e & w & nm & Hk & _ & Hrun & _); [vm_compute; reflexivity|reflexivity|].
    exists k, e, w, nm. split; assumption.
Defined.

(** A tie at 3 points between bob, whose entry was created by the function
    at 1010000 (a Timestamp), and carol, whose entry was created by the
    client's onboarding at 2000000 (a number): carol is selected, although
    her [firstToReachCurrentScore] is the later instant. *)
Lemma calculateWinnerForCycle_number_before_timestamp :
  leaderboard db_tie !! (K1, "bob") =
    Some (mkEntry "bob" 3 1 ["alice"] (TTimestamp 1010000) (TTimestamp 1010000)) /\
  leaderboard db_tie !! (K1, "carol") =
    Some (mkEntry "carol" 3 1 ["dave"] (TNumber 2000000) (TTimestamp 2110000)) /\
  fst (calculateWinnerForCycle (clk_at 3000000) K1 db_tie) = Ok (Settled K1 "carol" (Some "Carol")).
Proof. vm_compute. split_and!; reflexivity. Qed.
(** C6 (amended).  Re-running settlement for a cycle that already has a
    [CycleWinner] record, with entries and the winner's profile present,
    gives exactly what a first run would give: the old record plays no
    part and is overwritten by a new one whose [announcedAt] and
    [cycleEndTime] are the time of the rerun. *)
Theorem calculateWinnerForCycle_rerun_overwrites clk cycleId d w_old k0 e0 :
  cycleWinners d !! cycleId = Some w_old ->
  leaderboard d !! k0 = Some e0 -> k0.1 = cycleId ->
  (forall k e, query_top cycleId (leaderboard d) = Some (k, e) ->
     is_Some (users d !! e_creatorId e)) ->
  calculateWinnerForCycle clk cycleId d =
    calculateWinnerForCycle clk cycleId (set_cycleWinners (delete cycleId (cycleWinners d)) d) /\
  exists w, cycleWinners (snd (calculateWinnerForCycle clk cycleId d)) !! cycleId = Some w /\
    announcedAt w = now clk /\ cycleEndTime w = now clk.
Proof.
  intros _ Hk0 Hc0 Husers.
  pose proof (query_top_spec cycleId (leaderboard d)) as Hq.
  unfold calculateWinnerForCycle; unfold_monad.
  cbn -[delete insert lookup query_top].
  destruct (query_top cycleId (leaderboard d)) as [[k e]|]; [|exfalso; exact (Hq k0 e0 Hk0 Hc0)].
  destruct (Husers k e eq_refl) as [profile Hp]. rewrite Hp.
  split.
  - change (users (set_cycleWinners (delete cycleId (cycleWinners d)) d)) with (users d).
    rewrite Hp. unfold set_cycleWinners. cbn -[delete insert].
    by rewrite insert_delete_eq.
  - eexists. split; [apply lookup_insert_eq|]. split; reflexivity.
Qed.

(** The rerun happens after the users document of bob, who is not the
    winner, was deleted. *)
Lemma calculateWinnerForCycle_rerun_overwrites_witness :
  exists w, cycleWinners (snd (calculateWinnerForCycle (clk_at 3600000) K1
              (set_users (delete "bob" (users (snd (calculateWinnerForCycle (clk_at 3000000) K1 db_tie))))
                 (snd (calculateWinnerForCycle (clk_at 3000000) K1 db_tie))))) !! K1 = Some w /\
            announcedAt w = 3600000.
Proof.
  edestruct (calculateWinnerForCycle_rerun_overwrites (clk_at 3600000) K1
    (set_users (delete "bob" (users (snd (calculateWinnerForCycle (clk_at 3000000) K1 db_tie))))
       (snd (calculateWinnerForCycle (clk_at 3000000) K1 db_tie)))
    (mkWinner "carol" "Carol" "" "https://carol.example" 3 1 (TNumber 2000000) 3000000
       "2025-11-12T18:00:00-06:00" 3000000) (K1, "bob")
    (mkEntry "bob" 3 1 ["alice"] (TTimestamp 1010000) (TTimestamp 1010000)))
    as [_ (w & Hw & Ha & _)].
  - vm_compute. reflexivity.
  - vm_compute. reflexivity.
  - reflexivity.
  - intros k e Hq. vm_compute in Hq. injection Hq as <- <-.
    vm_compute. eexists. reflexivity.
  - exists w. split; [exact Hw|exact Ha].
Defined.

(** C6 counterexample.  Settling cycle [K1] at 3000000 and again at
    3600000: the second run replaces the record written by the first. *)
Lemma calculateWinnerForCycle_rerun_rewrites :
  let d1 := snd (calculateWinnerForCycle (clk_at 3000000) K1 db_tie) in
  let d2 := snd (calculateWinnerForCycle (clk_at 3600000) K1 d1) in
  option_map announcedAt (cycleWinners d1 !! K1) = Some 3000000 /\
  option_map announcedAt (cycleWinners d2 !! K1) = Some 3600000 /\
  cycleWinners d2 !! K1 <> cycleWinners d1 !! K1.
Proof. vm_compute. split_and!; [reflexivity|reflexivity|congruence]. Qed.
(** C7.  Pity redemption by one user for one cycle, for calls that do not
    overlap: after a call that applies the point (1 point), the next call
    applies nothing and returns "Already claimed pity point" without a
    write; a call that does not apply it writes nothing.  When the record
    is eligible and unclaimed and the user's pick and its creator's entry
    exist, the call applies the point.  When a precondition fails (no
    record, not eligible, already clicked, no pick), the call returns a
    not-applied result, without an error and without a write. *)
Theorem clickWinnerLink_idempotent clk1 clk2 u cycleId url d :
  (match clickWinnerLink clk1 (Some u) cycleId url d with
   | (Ok (Applied n), d1) =>
       n = 1 /\
       clickWinnerLink clk2 (Some u) cycleId url d1 =
         (Ok (NotApplied "Already claimed pity point"), d1)
   | (Ok (NotApplied _), d1) => d1 = d
   | (Throw _, d1) => d1 = d
   end) /\
  (forall el pk,
     pityPointsEligible d !! (cycleId, u) = Some el ->
     eligibleForPityPoint el = true -> clickedWinnerLink el = false ->
     picks d !! (cycleId, u) = Some pk ->
     is_Some (leaderboard d !! (cycleId, p_creatorId pk)) ->
     fst (clickWinnerLink clk1 (Some u) cycleId url d) = Ok (Applied 1)) /\
  ((pityPointsEligible d !! (cycleId, u) = None \/
    exists el, pityPointsEligible d !! (cycleId, u) = Some el /\
      (eligibleForPityPoint el = false \/ clickedWinnerLink el = true \/
       picks d !! (cycleId, u) = None)) ->
   exists msg, clickWinnerLink clk1 (Some u) cycleId url d = (Ok (NotApplied msg), d)).
Proof.
  split_and!.
  - rewrite clickWinnerLink_cases.
    destruct (pityPointsEligible d !! (cycleId, u)) as [el|] eqn:Hel; [|reflexivity].
    destruct (eligibleForPityPoint el) eqn:Helig, (clickedWinnerLink el) eqn:Hclk;
      cbn -[clickWinnerLink]; try reflexivity.
    destruct (picks d !! (cycleId, u)) as [pk|]; [|reflexivity].
    destruct (leaderboard d !! (cycleId, p_creatorId pk)); [|reflexivity].
    split; [reflexivity|]. rewrite clickWinnerLink_cases. cbn -[insert].
    rewrite lookup_insert_eq. cbn. rewrite Helig. reflexivity.
  - intros el pk Hel Helig Hclk Hpk [e He].
    rewrite clickWinnerLink_cases, Hel, Helig, Hclk. cbn. rewrite Hpk, He. reflexivity.
  - intros Hpre. rewrite clickWinnerLink_cases.
    destruct Hpre as [-> | (el & Hel & Hfail)]; [eauto|]. rewrite Hel.
    destruct (eligibleForPityPoint el), (clickedWinnerLink el); cbn; eauto;
      destruct Hfail as [?|[?|Hpk]]; try discriminate. rewrite Hpk. eauto.
Qed.

Lemma clickWinnerLink_idempotent_witness :
  fst (clickWinnerLink (clk_at 1500000) (Some "alice") K0 "https://erin.example" db_redeem) =
    Ok (Applied 1) /\
  clickWinnerLink (clk_at 1600000) (Some "alice") K0 "https://erin.example"
    (snd (clickWinnerLink (clk_at 1500000) (Some "alice") K0 "https://erin.example" db_redeem)) =
    (Ok (NotApplied "Already claimed pity point"),
     snd (clickWinnerLink (clk_at 1500000) (Some "alice") K0 "https://erin.example" db_redeem)).
Proof.
  destruct (clickWinnerLink_idempotent (clk_at 1500000) (clk_at 1600000) "alice" K0
              "https://erin.example" db_redeem) as (H1 & H2 & _).
  assert (Ha : fst (clickWinnerLink (clk_at 1500000) (Some "alice") K0 "https://erin.example"
                      db_redeem) = Ok (Applied 1)).
  { apply (H2 (mkElig "alice" true false "erin" "bob" None) (mkPick "alice" "bob" 3 0 0 0));
      [vm_compute; reflexivity|reflexivity|reflexivity|vm_compute; reflexivity|].
    eexists. vm_compute. reflexivity. }
  split; [exact Ha|].
  destruct (clickWinnerLink (clk_at 1500000) (Some "alice") K0 "https://erin.example" db_redeem)
    as [[[m|n]|e] d1]; cbn in Ha; try discriminate.
  exact (proj2 H1).
Defined.
Lemma submit_commit_first_reach clk sc d k e :
  leaderboard d !! k = Some e ->
  leaderboard (snd (submit_commit clk sc d)) !! k = Some e \/
  exists n t ns, leaderboard (snd (submit_commit clk sc d)) !! k = Some (bump_entry n t ns e).
Proof.
  intros He.
  unfold submit_commit, submit_transaction; unfold_monad; cbn.
  destruct (picks d !! (sc_cycleId sc, sc_userId sc)) as [pk|]; cbn; [|left; exact He].
  destruct (leaderboard d !! (sc_cycleId sc, sc_creatorId sc)) as [e1|] eqn:He1; cbn.
  - rewrite He1; cbn.
    destruct (users d !! sc_userId sc); cbn; [|left; exact He].
    destruct (decide (k = (sc_cycleId sc, sc_creatorId sc))) as [->|Hne].
    + rewrite He1 in He. injection He as ->.
      destruct (gameSessions d !! sc_sessionId sc); cbn;
        right; do 3 eexists; apply lookup_insert_eq.
    + destruct (gameSessions d !! sc_sessionId sc); cbn;
        left; rewrite lookup_insert_ne by congruence; exact He.
  - destruct (users d !! sc_userId sc); cbn; [|left; exact He].
    assert (k <> (sc_cycleId sc, sc_creatorId sc)) by congruence.
    destruct (gameSessions d !! sc_sessionId sc); cbn;
      left; rewrite lookup_insert_ne by congruence; exact He.
Qed.

(** C9.  What [submitGameResult] does to an existing leaderboard entry:
    the entry stays, either as it was or updated by [bump_entry], and its
    [firstToReachCurrentScore] is never changed, even when its
    [totalPoints] grows. *)
Theorem submitGameResult_keeps_firstToReach clk ctx sid tt d k e :
  leaderboard d !! k = Some e ->
  exists e', leaderboard (snd (submitGameResult clk ctx sid tt d)) !! k = Some e' /\
    firstToReachCurrentScore e' = firstToReachCurrentScore e /\
    (e' = e \/ exists n t ns, e' = bump_entry n t ns e).
Proof.
  intros He. pose proof (submit_validate_spec clk ctx sid tt d) as Hv.
  unfold submitGameResult, bind.
  destruct (submit_validate clk ctx sid tt d) as [[sc|err] d1];
    destruct Hv as [[rl ->] _]; cbn.
  - destruct (submit_commit_first_reach clk sc (set_rateLimits rl d) k e He)
      as [H|(n & t & ns & H)];
    destruct (submit_commit clk sc (set_rateLimits rl d)) as [o d2]; cbn in *.
    + eexists; split; [exact H|]. split; [reflexivity|left; reflexivity].
    + eexists; split; [exact H|]. split; [destruct ns; reflexivity|right; eauto].
  - eexists; split; [exact He|]. split; [reflexivity|left; reflexivity].
Qed.

Lemma submitGameResult_keeps_firstToReach_witness :
  exists e', leaderboard (snd (submitGameResult (clk_at 1110000) (Some "alice") "s3" 10
                (snd (startGameSession (clk_at 1100000) (Some "alice") "s3" "whackAMole" None
                   db_alice_played)))) !! (K1, "bob") = Some e' /\
    firstToReachCurrentScore e' = TTimestamp 1010000.
Proof.
  destruct (submitGameResult_keeps_firstToReach (clk_at 1110000) (Some "alice") "s3" 10
     (snd (startGameSession (clk_at 1100000) (Some "alice") "s3" "whackAMole" None db_alice_played))
     (K1, "bob") (mkEntry "bob" 3 1 ["alice"] (TTimestamp 1010000) (TTimestamp 1010000)))
    as (e' & He' & Hf & _); [vm_compute; reflexivity|].
  exists e'. split; [exact He'|exact Hf].
Defined.

(** alice's second game raises bob's entry from 3 to 6 points at 1110000;
    its [firstToReachCurrentScore] stays at 1010000, the time of the first
    award, and only [lastUpdated] moves. *)
Lemma submitGameResult_firstToReach_stale :
  leaderboard db_alice_played !! (K1, "bob") =
    Some (mkEntry "bob" 3 1 ["alice"] (TTimestamp 1010000) (TTimestamp 1010000)) /\
  fst (c9_history db_alice_played) = Ok (3, "bob") /\
  leaderboard (snd (c9_history db_alice_played)) !! (K1, "bob") =
    Some (mkEntry "bob" 6 1 ["alice"] (TTimestamp 1010000) (TTimestamp 1110000)).
Proof. vm_compute. split_and!; reflexivity. Qed.

(** C10.  For a player whose pick in cycle [K] is not the winner's, the
    issuers ([awardPityPoints], or [manualAwardPityPoints] for [K]) write
    an eligible record into [pityPointsEligible], do not touch
    [pityPoints], and [applyPityPoints] for [K] then throws
    [NotFound "No pity point found"] and changes nothing. *)
Theorem applyPityPoints_ignores_issued_eligibility clk u K wId d d1 pk wd :
  pityPoints d !! (K, u) = None ->
  picks d !! (K, u) = Some pk -> p_creatorId pk <> winnerId wd ->
  (d1 = snd (awardPityPoints K wd d) \/
   exists arg, or_current clk arg = K /\ cycleWinners d !! K = Some wd /\
               d1 = snd (manualAwardPityPoints clk arg d)) ->
  pityPointsEligible d1 !! (K, u) = Some (mkElig u true false (winnerId wd) (p_creatorId pk) None) /\
  pityPoints d1 = pityPoints d /\
  applyPityPoints clk (Some u) K wId d1 = (Throw (NotFound "No pity point found"), d1).
Proof.
  intros Hpp Hpk Hw Hd1.
  assert (Hd : d1 = snd (issue_pity K (winnerId wd) d)).
  { destruct Hd1 as [-> | (arg & <- & Hwd & ->)].
    - unfold awardPityPoints, bind.
      destruct (issue_pity K (winnerId wd) d) as [[] ?]; reflexivity.
    - unfold manualAwardPityPoints, bind, gets. rewrite Hwd. reflexivity. }
  destruct (issue_pity_eligible K (winnerId wd) d u pk Hpk Hw) as [Hel Hpp'].
  rewrite <- Hd in Hel, Hpp'. clear Hd1 Hd.
  split_and!; [exact Hel|exact Hpp'|].
  unfold applyPityPoints; unfold_monad; cbn. rewrite Hpp', Hpp. reflexivity.
Qed.

Lemma applyPityPoints_ignores_issued_eligibility_witness :
  applyPityPoints (clk_at 4000000) (Some "alice") K1 "carol"
    (snd (awardPityPoints K1 (mkWinner "carol" "Carol" "" "https://carol.example" 3 1
       (TNumber 2000000) 3000000 "2025-11-12T18:00:00-06:00" 3000000) db_tie)) =
  (Throw (NotFound "No pity point found"),
   snd (awardPityPoints K1 (mkWinner "carol" "Carol" "" "https://carol.example" 3 1
       (TNumber 2000000) 3000000 "2025-11-12T18:00:00-06:00" 3000000) db_tie)).
Proof.
  refine (proj2 (proj2 (applyPityPoints_ignores_issued_eligibility (clk_at 4000000) "alice" K1
    "carol" db_tie _ (mkPick "alice" "bob" 3 0 0 0)
    (mkWinner "carol" "Carol" "" "https://carol.example" 3 1
       (TNumber 2000000) 3000000 "2025-11-12T18:00:00-06:00" 3000000) _ _ _ _))).
  - vm_compute. reflexivity.
  - vm_compute. reflexivity.
  - cbn. discriminate.
  - left. reflexivity.
Defined.


(** ** Dates *)
Lemma DayFromYear_step y : DayFromYear (y + 1) = DayFromYear y + DaysInYear y.
Proof.
  unfold DayFromYear, DaysInYear.
  destruct (Z.eqb_spec (y mod 4) 0), (Z.eqb_spec (y mod 100) 0), (Z.eqb_spec (y mod 400) 0); cbn;
  Z.div_mod_to_equations; lia.
Qed.

Lemma YearFromDay_bracket n :
  DayFromYear (YearFromDay n) <= n < DayFromYear (YearFromDay n + 1).
Proof.
  unfold YearFromDay.
  set (y0 := 1970 + (n * 400) / 146097).
  assert (Ha : DayFromYear (y0 - 1) <= n) by (unfold y0, DayFromYear; Z.div_mod_to_equations; lia).
  assert (Hb : n < DayFromYear (y0 + 2)) by (unfold y0, DayFromYear; Z.div_mod_to_equations; lia).
  destruct (Z.ltb_spec n (DayFromYear y0)).
  - replace (y0 - 1 + 1) with y0 by lia.
    destruct (Z.leb_spec (DayFromYear y0) n); [lia|].
    replace (y0 - 1 + 1) with y0 by lia. lia.
  - destruct (Z.leb_spec (DayFromYear (y0 + 1)) n).
    + replace (y0 + 1 + 1) with (y0 + 2) by lia. lia.
    + lia.
Qed.


(** Year, month (0-based) and date of day number [n]: ECMA-262's
    YearFromTime, MonthFromTime and DateFromTime. *)
Lemma InLeapYear_range y : 0 <= InLeapYear y <= 1.
Proof. unfold InLeapYear, DaysInYear. repeat case_match; lia. Qed.

Lemma ymd_of_day_range n :
  let '(y, m, dt) := ymd_of_day n in
  y = YearFromDay n /\ 0 <= m <= 11 /\ 1 <= dt <= 31.
Proof.
  pose proof (YearFromDay_bracket n) as Hb.
  rewrite DayFromYear_step in Hb.
  pose proof (InLeapYear_range (YearFromDay n)) as Hl.
  unfold InLeapYear in *.
  unfold ymd_of_day. unfold InLeapYear.
  repeat match goal with |- context [if ?c then _ else _] => destruct c eqn:? end;
    rewrite ?Z.ltb_lt, ?Z.ltb_ge in *; repeat split; lia.
Qed.

Lemma ymd_of_day_inj n1 n2 : ymd_of_day n1 = ymd_of_day n2 -> n1 = n2.
Proof.
  unfold ymd_of_day.
  generalize (YearFromDay n1) (YearFromDay n2). intros y1 y2.
  repeat match goal with |- context [if ?c then _ else _] => destruct c eqn:? end;
    intros H; injection H; clear H; intros; subst; rewrite ?Z.ltb_lt, ?Z.ltb_ge in *; lia.
Qed.

Lemma two_digits_shape_all :
  forallb (fun k => match two_digits k with
                    | String _ (String _ EmptyString) => true | _ => false end) days_1_31 = true.
Proof. vm_compute. reflexivity. Qed.
Lemma two_digits_inj_all :
  forallb (fun a => forallb (fun b => implb (String.eqb (two_digits a) (two_digits b)) (a =? b))
             days_1_31) days_1_31 = true.
Proof. vm_compute. reflexivity. Qed.

Lemma in_days_1_31 k : 1 <= k <= 31 -> In k days_1_31.
Proof.
  intros Hk. unfold days_1_31. apply in_map_iff. exists (Z.to_nat k).
  split; [lia|]. apply in_seq. lia.
Qed.

Lemma two_digits_shape k : 1 <= k <= 31 ->
  exists a b, two_digits k = String a (String b EmptyString).
Proof.
  intros Hk. pose proof two_digits_shape_all as H. rewrite forallb_forall in H.
  specialize (H k (in_days_1_31 k Hk)).
  destruct (two_digits k) as [|a [|b [|]]]; try discriminate. eauto.
Qed.

Lemma two_digits_inj k1 k2 : 1 <= k1 <= 31 -> 1 <= k2 <= 31 ->
  two_digits k1 = two_digits k2 -> k1 = k2.
Proof.
  intros H1 H2 He. pose proof two_digits_inj_all as H. rewrite forallb_forall in H.
  specialize (H k1 (in_days_1_31 k1 H1)). rewrite forallb_forall in H.
  specialize (H k2 (in_days_1_31 k2 H2)).
  rewrite He, String.eqb_refl in H. cbn in H. by apply Z.eqb_eq.
Qed.

Lemma string_length_app s r :
  String.length (s +:+ r) = (String.length s + String.length r)%nat.
Proof. induction s as [|c s IH]; simpl; [reflexivity|]. rewrite IH. reflexivity. Qed.

Lemma string_app_cancel s1 s2 r1 r2 :
  String.length r1 = String.length r2 -> (s1 +:+ r1 = s2 +:+ r2)%string ->
  s1 = s2 /\ r1 = r2.
Proof.
  intros Hl He.
  assert (Hs : String.length s1 = String.length s2).
  { apply (f_equal String.length) in He. rewrite !string_length_app in He. lia. }
  revert s2 Hs He. induction s1 as [|c s1 IH]; intros [|c2 s2] Hs He; cbn in *; try lia.
  - done.
  - injection He as -> He. destruct (IH s2) as [-> ->]; [lia|done|]. done.
Qed.

Lemma cycle_id_of_day_inj n1 n2 : cycle_id_of_day n1 = cycle_id_of_day n2 -> n1 = n2.
Proof.
  unfold cycle_id_of_day.
  pose proof (ymd_of_day_range n1) as R1. pose proof (ymd_of_day_range n2) as R2.
  pose proof (ymd_of_day_inj n1 n2) as Hi.
  destruct (ymd_of_day n1) as [[y1 m1] d1], (ymd_of_day n2) as [[y2 m2] d2].
  destruct R1 as (_ & Hm1 & Hd1), R2 as (_ & Hm2 & Hd2).
  fold (two_digits (m1 + 1)) (two_digits d1) (two_digits (m2 + 1)) (two_digits d2).
  destruct (two_digits_shape (m1 + 1)) as (a1 & b1 & Ha1); [lia|].
  destruct (two_digits_shape (m2 + 1)) as (a2 & b2 & Ha2); [lia|].
  destruct (two_digits_shape d1) as (c1 & e1 & Hc1); [lia|].
  destruct (two_digits_shape d2) as (c2 & e2 & Hc2); [lia|].
  rewrite Ha1, Ha2, Hc1, Hc2. intros He.
  apply string_app_cancel in He; [|reflexivity].
  destruct He as [Hy Hr]. apply (inj pretty) in Hy. cbn in Hr.
  injection Hr as <- <- <- <-.
  apply Hi. f_equal; [f_equal; [exact Hy|]|].
  - enough (m1 + 1 = m2 + 1) by lia. apply two_digits_inj; [lia|lia|congruence].
  - apply two_digits_inj; [lia|lia|congruence].
Qed.


Lemma getCycleId_day daysAgo t :
  getCycleId daysAgo t = cycle_id_of_day ((t - daysAgo * msPerDay) / msPerDay).
Proof. reflexivity. Qed.

Lemma getCycleId_same_day t1 t2 :
  getCycleId 0 t1 = getCycleId 0 t2 <-> t1 / msPerDay = t2 / msPerDay.
Proof.
  rewrite !getCycleId_day. replace (t1 - 0 * msPerDay) with t1 by lia.
  replace (t2 - 0 * msPerDay) with t2 by lia.
  split; [apply cycle_id_of_day_inj|intros ->; reflexivity].
Qed.

(** The server's cycle id is a function of the UTC day, and a different
    one on every UTC day: it rolls over at 00:00 UTC. *)
Theorem getCycleId_rollover_utc t1 t2 :
  getCycleId 0 t1 = getCycleId 0 t2 <-> t1 / msPerDay = t2 / msPerDay.
Proof. exact (getCycleId_same_day t1 t2). Qed.

Lemma calculateWinnerForCycle_other_keys clk K d k :
  k <> K ->
  cycleWinners (snd (calculateWinnerForCycle clk K d)) !! k = cycleWinners d !! k.
Proof.
  intros Hk. unfold calculateWinnerForCycle; unfold_monad; cbn.
  destruct (query_top K (leaderboard d)) as [[? e]|]; cbn; [|reflexivity].
  destruct (users d !! e_creatorId e); cbn; [|reflexivity].
  rewrite lookup_insert_ne; [reflexivity|congruence].
Qed.

(** The scheduled settlement fires at 18:00 America/Chicago; in standard
    time that is 00:00 UTC, the instant [T] with [T mod msPerDay = 0].  A
    run started within the following day writes the winner record of the
    cycle that begins at [T], and of no cycle under which points were
    recorded during the 24 hours before [T]. *)
Theorem calculateCycleWinner_settles_starting_cycle T delta d k :
  T mod msPerDay = 0 -> 0 <= delta < msPerDay ->
  cycleWinners (snd (calculateCycleWinner (server_clock (T + delta)) d)) !! k <>
    cycleWinners d !! k ->
  k = getCycleId 0 T /\
  (forall t, T <= t < T + msPerDay -> getCycleId 0 t = k) /\
  (forall t, T - msPerDay <= t < T -> getCycleId 0 t <> k).
Proof.
  intros HT Hd Hk.
  assert (HK : k = getCycleId 0 (T + delta)).
  { destruct (decide (k = getCycleId 0 (T + delta))) as [->|Hne]; [reflexivity|].
    exfalso. apply Hk. unfold calculateCycleWinner, bind.
    pose proof (calculateWinnerForCycle_other_keys (server_clock (T + delta))
                  (getCycleId 0 (T + delta)) d k Hne) as H.
    cbn [currentCycleId server_clock] in H |- *.
    destruct (calculateWinnerForCycle _ _ d) as [[] d'] eqn:E; cbn in H |- *; exact H. }
  assert (HTd : getCycleId 0 (T + delta) = getCycleId 0 T).
  { apply getCycleId_same_day. unfold msPerDay in *. Z.div_mod_to_equations. lia. }
  split_and!.
  - congruence.
  - intros t Ht. rewrite HK, HTd. apply getCycleId_same_day.
    unfold msPerDay in *. Z.div_mod_to_equations. lia.
  - intros t Ht Heq. rewrite HK, HTd in Heq. apply getCycleId_same_day in Heq.
    unfold msPerDay in *. Z.div_mod_to_equations. lia.
Qed.

(** A browser on US Central Standard Time computes the same cycle id as
    the functions exactly from 06:00 to 24:00 UTC; from 18:00 to 24:00
    local time (00:00-06:00 UTC) it is one day behind: its id is the
    functions' [getCycleId(1)]. *)
Theorem getCurrentCycleId_cst_vs_server t :
  (getCurrentCycleId CST t = getCycleId 0 t <-> 6 * msPerHour <= t mod msPerDay) /\
  getCurrentCycleId CST t =
    getCycleId (if t mod msPerDay <? 6 * msPerHour then 1 else 0) t.
Proof.
  unfold getCurrentCycleId. rewrite !getCycleId_day.
  replace (t - 0 * msPerDay) with t by lia.
  split; [split|].
  - intros H. apply cycle_id_of_day_inj in H. revert H.
    unfold CST, msPerHour, msPerDay. Z.div_mod_to_equations. lia.
  - intros H. f_equal. revert H. unfold CST, msPerHour, msPerDay.
    Z.div_mod_to_equations. lia.
  - f_equal. unfold CST, msPerHour, msPerDay.
    destruct (Z.ltb_spec (t mod 86400000) (6 * 3600000)) as [H|H]; revert H;
      Z.div_mod_to_equations; lia.
Qed.

(** On US Central Standard Time, the completed cycle the client computes
    is always the functions' [getCycleId(1)]. *)
Theorem completedCycleId_cst t :
  completedCycleId CST t = getCycleId 1 t.
Proof.
  unfold completedCycleId. rewrite getCycleId_day. f_equal.
  unfold CST, msPerHour, msPerDay.
  destruct (Z.ltb_spec (((t + -6 * 3600000) / 3600000) mod 24) 18) as [H|H]; revert H;
    Z.div_mod_to_equations; lia.
Qed.

(** In any time zone, from 18:00 local time the client's completed cycle
    is its own current cycle, the one it still picks and plays in; before
    18:00 the two differ. *)
Theorem completedCycleId_evening off t :
  completedCycleId off t = getCurrentCycleId off t <->
  18 <= ((t + off) / msPerHour) mod 24.
Proof.
  unfold completedCycleId, getCurrentCycleId.
  destruct (Z.ltb_spec (((t + off) / msPerHour) mod 24) 18) as [H|H].
  - split; [|lia]. intros He. apply cycle_id_of_day_inj in He. revert He.
    unfold msPerDay. Z.div_mod_to_equations. lia.
  - split; [intros _; exact H|intros _]. f_equal. f_equal. lia.
Qed.

(** ** Further properties of the functions *)

(** [applyPityPoints] never succeeds and never writes: every call fails
    and leaves the database as it was; a call that passes all its checks
    fails in the transaction, which reads [startingBonuses] after its
    first write. *)
Theorem applyPityPoints_never_commits clk u previousCycleId winnerId d pp pk e :
  pityPoints d !! (previousCycleId, u) = Some pp -> appliedToNextCycle pp = false ->
  picks d !! (currentCycleId clk, u) = Some pk ->
  leaderboard d !! (currentCycleId clk, p_creatorId pk) = Some e ->
  applyPityPoints clk (Some u) previousCycleId winnerId d =
    (Throw (Internal "Firestore transactions require all reads to be executed before all writes."), d) /\
  (forall clk' ctx' p' w' d', exists err, applyPityPoints clk' ctx' p' w' d' = (Throw err, d')).
Proof.
  intros Hpp Ha Hpk He. split; [|intros; apply applyPityPoints_throws].
  unfold applyPityPoints; unfold_monad; cbn.
  rewrite Hpp; cbn. rewrite Ha; cbn. rewrite Hpk; cbn. rewrite He; reflexivity.
Qed.

(** The rate limiter fails only with [resource-exhausted], and the
    minutes it reports are between 1 and the window length, when the
    caller's window started no later than now. *)
Theorem checkRateLimit_retry_minutes clk u a N W d r o d' :
  rateLimits d !! rl_key u a = Some r -> windowStart r <= now clk ->
  checkRateLimit clk u a N W d = (o, d') ->
  forall err, o = Throw err -> exists m, err = ResourceExhausted m /\ 1 <= m <= W /\ d' = d.
Proof.
  intros Hr Hws Hc err ->. revert Hc.
  unfold checkRateLimit, rl_key in *; unfold_monad; cbn. rewrite Hr.
  destruct (Z.ltb_spec (now clk - windowStart r) (W * 60 * 1000)) as [Hin|Hout].
  - destruct (Z.geb_spec (requestCount r) N); cbn; [|discriminate].
    intros [= <- <-]. eexists; split; [reflexivity|]. split; [|reflexivity].
    unfold ceil_minutes; Z.div_mod_to_equations; lia.
  - discriminate.
Qed.

Lemma cleanup_lookup clk d k :
  gameSessions (snd (cleanupExpiredSessions clk d)) !! k =
  match gameSessions d !! k with
  | Some s => if session_expired_unused (now clk) s then None else Some s
  | None => None
  end.
Proof.
  unfold cleanupExpiredSessions; unfold_monad; cbn.
  rewrite map_lookup_filter. destruct (gameSessions d !! k) as [s|]; cbn; [|reflexivity].
  destruct (session_expired_unused (now clk) s); cbn; reflexivity.
Qed.

Lemma startGameSession_ok clk u sid g diff d o d1 :
  startGameSession clk (Some u) sid g diff d = (o, d1) -> o = Ok sid ->
  exists v rl, GAME_VALIDATION g = Some v /\
    d1 = set_gameSessions (<[sid := mkSession u g (default "easy" diff) (now clk) false
                                     (now clk + 10 * 60 * 1000) (points v)]> (gameSessions d))
           (set_rateLimits rl d).
Proof.
  unfold startGameSession. destruct (GAME_VALIDATION g) as [v|]; [|unfold_monad; intros [= <- _]; discriminate].
  destruct (checkRateLimit_cases clk u "startGameSession" 30 60 d) as [[m Hc]|[rl Hc]];
    unfold bind at 1; rewrite Hc; [intros [= <- _]; discriminate|].
  unfold db_set; unfold_monad; cbn. intros [= <- <-] _. exists v, rl. split; reflexivity.
Qed.

(** The hourly cleanup deletes exactly the sessions that are past their
    expiry and unused: a used session, or one whose expiry is not before
    now, stays, and the call changes no other collection. *)
Theorem cleanupExpiredSessions_deletes_only_expired_unused clk d k s :
  gameSessions d !! k = Some s ->
  let d' := snd (cleanupExpiredSessions clk d) in
  fst (cleanupExpiredSessions clk d) = Ok tt /\
  set_gameSessions (gameSessions d) d' = d /\
  (s_used s = true \/ now clk <= s_expiresAt s -> gameSessions d' !! k = Some s) /\
  (s_used s = false -> s_expiresAt s < now clk -> gameSessions d' !! k = None).
Proof.
  intros Hk d'. subst d'. split; [reflexivity|]. split.
  { destruct d; reflexivity. }
  rewrite cleanup_lookup, Hk. unfold session_expired_unused. split.
  - intros [->|Hle]; [rewrite andb_false_r; reflexivity|].
    replace (s_expiresAt s <? now clk) with false by (symmetry; apply Z.ltb_ge; lia). reflexivity.
  - intros -> Hlt. replace (s_expiresAt s <? now clk) with true by (symmetry; apply Z.ltb_lt; lia).
    reflexivity.
Qed.

(** A session opened by [startGameSession] survives every cleanup run up
    to ten minutes after its start, and a cleanup run later than that
    deletes it if it has not been used. *)
Theorem startGameSession_cleanup_lifetime clk1 clk2 u sid g diff d d1 :
  startGameSession clk1 (Some u) sid g diff d = (Ok sid, d1) ->
  (now clk2 <= now clk1 + 600000 ->
     gameSessions (snd (cleanupExpiredSessions clk2 d1)) !! sid = gameSessions d1 !! sid /\
     is_Some (gameSessions d1 !! sid)) /\
  (now clk1 + 600000 < now clk2 ->
     gameSessions (snd (cleanupExpiredSessions clk2 d1)) !! sid = None).
Proof.
  intros Hs. destruct (startGameSession_ok _ _ _ _ _ _ _ _ Hs eq_refl) as (v & rl & _ & ->).
  rewrite cleanup_lookup. cbn [gameSessions set_gameSessions]. rewrite lookup_insert_eq.
  unfold session_expired_unused; cbn. split.
  - intros Hle. replace (now clk1 + 10 * 60 * 1000 <? now clk2) with false
      by (symmetry; apply Z.ltb_ge; lia). split; [reflexivity|eexists; reflexivity].
  - intros Hlt. replace (now clk1 + 10 * 60 * 1000 <? now clk2) with true
      by (symmetry; apply Z.ltb_lt; lia). reflexivity.
Qed.

Lemma submitGameResult_ok_inv clk u sid ta d r d' :
  submitGameResult clk (Some u) sid ta d = (Ok r, d') ->
  exists s v pk ud e' rl,
    gameSessions d !! sid = Some s /\ s_used s = false /\
    GAME_VALIDATION (s_gameType s) = Some v /\
    picks d !! (currentCycleId clk, u) = Some pk /\ users d !! u = Some ud /\
    r = (points v, p_creatorId pk) /\
    gameSessions d' = <[sid := mark_used s]> (gameSessions d) /\
    picks d' = <[(currentCycleId clk, u) := add_pick_points (points v) pk]> (picks d) /\
    leaderboard d' = <[(currentCycleId clk, p_creatorId pk) := e']> (leaderboard d) /\
    totalPoints e' = entry_points (currentCycleId clk) (p_creatorId pk) (leaderboard d) + points v /\
    u ∈ supporters e' /\
    users d' = <[u := add_user_stats (points v) ud]> (users d) /\
    gameResults d' = gameResults d ++
      [mkResult u sid (currentCycleId clk) (s_gameType s) (points v) ta (now clk) (p_creatorId pk)] /\
    rateLimits d' = rl /\
    pityPointsEligible d' = pityPointsEligible d /\ pityPoints d' = pityPoints d /\
    startingBonuses d' = startingBonuses d /\ cycleWinners d' = cycleWinners d.
Proof.
  intros H. pose proof (submit_validate_spec clk (Some u) sid ta d) as Hv.
  unfold submitGameResult in H. unfold bind at 1 in H.
  destruct (submit_validate clk (Some u) sid ta d) as [[sc|e] d1]; [|discriminate].
  destruct Hv as [[rl ->] [Hok _]].
  destruct (Hok sc eq_refl) as (Hsid & Hs & Hused & Hctx & Hcyc & Htt & (v & Hv & Hpts) & pk & Hpk & Hcr).
  injection Hctx as Hu0. destruct sc as [u0 sid0 s K n c ta0]; cbn in *; subst.
  unfold submit_commit, submit_transaction in H; unfold_monad; cbn in H.
  rewrite Hpk in H; cbn in H.
  destruct (leaderboard d !! (currentCycleId clk, p_creatorId pk)) as [e|] eqn:He; cbn in H.
  - rewrite He in H; cbn in H.
    destruct (users d !! u0) as [ud|] eqn:Hu; cbn in H; [|discriminate].
    rewrite Hs in H; cbn in H. injection H as <- <-.
    exists s, v, pk, ud.
    eexists; exists rl.
    split_and!; try reflexivity; try assumption.
    + cbn. unfold entry_points. rewrite He. destruct (bool_decide _); cbn; lia.
    + destruct (bool_decide (u0 ∈ supporters e)) eqn:Hb; cbn; rewrite ?Hb.
      * apply bool_decide_eq_true in Hb. exact Hb.
      * set_solver.
  - destruct (users d !! u0) as [ud|] eqn:Hu; cbn in H; [|discriminate].
    rewrite Hs in H; cbn in H. injection H as <- <-.
    exists s, v, pk, ud.
    eexists; exists rl.
    split_and!; try reflexivity; try assumption.
    + cbn. unfold entry_points. rewrite He. lia.
    + cbn. set_solver.
Qed.


(** A successful submission awards the points of the session's game type
    (not the session's stored [expectedPointValue]): it adds them to the
    player's pick, to the picked creator's leaderboard entry, which then
    lists the player among its supporters, and to the player's totals (one
    more game), marks the session used and appends one game result; the
    pity and winner collections are untouched. *)
Theorem submitGameResult_success_effects clk u sid ta d r d' :
  submitGameResult clk (Some u) sid ta d = (Ok r, d') ->
  exists s v pk ud e' rl,
    gameSessions d !! sid = Some s /\ s_used s = false /\
    GAME_VALIDATION (s_gameType s) = Some v /\
    picks d !! (currentCycleId clk, u) = Some pk /\ users d !! u = Some ud /\
    r = (points v, p_creatorId pk) /\
    gameSessions d' = <[sid := mark_used s]> (gameSessions d) /\
    picks d' = <[(currentCycleId clk, u) := add_pick_points (points v) pk]> (picks d) /\
    leaderboard d' = <[(currentCycleId clk, p_creatorId pk) := e']> (leaderboard d) /\
    totalPoints e' = entry_points (currentCycleId clk) (p_creatorId pk) (leaderboard d) + points v /\
    u ∈ supporters e' /\
    users d' = <[u := add_user_stats (points v) ud]> (users d) /\
    gameResults d' = gameResults d ++
      [mkResult u sid (currentCycleId clk) (s_gameType s) (points v) ta (now clk) (p_creatorId pk)] /\
    rateLimits d' = rl /\
    pityPointsEligible d' = pityPointsEligible d /\ pityPoints d' = pityPoints d /\
    startingBonuses d' = startingBonuses d /\ cycleWinners d' = cycleWinners d.
Proof. apply submitGameResult_ok_inv. Qed.

Lemma GAME_VALIDATION_max g v : GAME_VALIDATION g = Some v -> (maxSeconds v <= inject_Z 240)%Q.
Proof.
  unfold GAME_VALIDATION.
  repeat match goal with |- context [String.eqb ?a ?b] => destruct (String.eqb a b) end;
    intros [= <-]; apply Qle_bool_imp_le; reflexivity.
Qed.

Lemma seconds_le x q : (inject_Z x / inject_Z 1000 <= inject_Z q)%Q -> x <= q * 1000.
Proof. unfold Qle, Qdiv, Qmult, Qinv, inject_Z; cbn. lia. Qed.

Lemma Qltb_false a b : (b <= a)%Q -> Qltb a b = false.
Proof. intros H. unfold Qltb. apply negb_false_iff, Qle_bool_iff, H. Qed.

(** Every game type's longest accepted play (at most 240 seconds) ends
    within the ten-minute life of a session: a session opened by
    [startGameSession] and submitted by its owner after an elapsed time
    within the game type's bounds is accepted, for the points of that game
    type and the creator the player picks in the current cycle, provided
    the rate limiter admits the call and the player has a pick and a users
    document. *)
Theorem startGameSession_then_submitGameResult clk1 clk2 u sid g diff ta d d1 v pk :
  startGameSession clk1 (Some u) sid g diff d = (Ok sid, d1) ->
  GAME_VALIDATION g = Some v ->
  (minSeconds v <= inject_Z (now clk2 - now clk1) / inject_Z 1000 <= maxSeconds v)%Q ->
  fst (checkRateLimit clk2 u "submitGameResult" 30 60 d1) = Ok () ->
  picks d !! (currentCycleId clk2, u) = Some pk -> is_Some (users d !! u) ->
  fst (submitGameResult clk2 (Some u) sid ta d1) = Ok (points v, p_creatorId pk).
Proof.
  intros Hs Hv [Hmin Hmax] Hrl Hpk Hu.
  destruct (startGameSession_ok _ _ _ _ _ _ _ _ Hs eq_refl) as (v' & rl & Hv' & ->).
  rewrite Hv in Hv'. injection Hv' as <-.
  assert (Hexp : now clk2 - now clk1 <= 240 * 1000).
  { apply seconds_le. eapply Qle_trans; [exact Hmax|]. eapply GAME_VALIDATION_max; exact Hv. }
  edestruct (submit_validate_checked clk2 u sid ta
    (set_gameSessions (<[sid := mkSession u g (default "easy" diff) (now clk1) false
       (now clk1 + 10 * 60 * 1000) (points v)]> (gameSessions d)) (set_rateLimits rl d))
    (mkSession u g (default "easy" diff) (now clk1) false (now clk1 + 10 * 60 * 1000) (points v))
    v pk) as [rl2 Hval].
  - cbn. apply lookup_insert_eq.
  - reflexivity.
  - reflexivity.
  - exact Hv.
  - cbn. lia.
  - exact Hrl.
  - exact Hpk.
  - cbv zeta in Hval. cbn [s_startTime] in Hval.
    rewrite (Qltb_false _ _ Hmin), (Qltb_false _ _ Hmax) in Hval.
    unfold submitGameResult. unfold bind at 1. rewrite Hval. cbv beta iota.
    refine (submit_commit_ok _ _ _ pk _ _ _).
    + exact Hpk.
    + exact Hu.
    + cbn. rewrite lookup_insert_eq. eexists; reflexivity.
Qed.

Lemma submit_commit_no_user clk sc d :
  users d !! sc_userId sc = None -> exists e, submit_commit clk sc d = (Throw e, d).
Proof.
  intros Hu. unfold submit_commit, submit_transaction; unfold_monad; cbn.
  destruct (picks d !! (sc_cycleId sc, sc_userId sc)) as [pk|] eqn:Hpk; cbn; [|eauto].
  destruct (leaderboard d !! (sc_cycleId sc, sc_creatorId sc)) as [e|] eqn:He; cbn.
  - rewrite He; cbn. rewrite Hu; cbn. eauto.
  - rewrite Hu; cbn. eauto.
Qed.

(** A player without a users document never scores: every submission
    fails, and the transaction's partial writes are rolled back, so at most
    the rate-limit records change and the session stays unused. *)
Theorem submitGameResult_without_user_doc clk u sid ta d :
  users d !! u = None ->
  exists e rl, submitGameResult clk (Some u) sid ta d = (Throw e, set_rateLimits rl d).
Proof.
  intros Hu. pose proof (submit_validate_spec clk (Some u) sid ta d) as Hv.
  unfold submitGameResult. unfold bind at 1.
  destruct (submit_validate clk (Some u) sid ta d) as [[sc|e] d1];
    destruct Hv as [[rl ->] [Hok _]]; [|eauto].
  destruct (Hok sc eq_refl) as (_ & _ & _ & Hctx & _).
  injection Hctx as Hctx. subst u.
  destruct (submit_commit_no_user clk sc (set_rateLimits rl d) Hu) as [e He].
  rewrite He. eauto.
Qed.

(** A player who switches creators in the client stays in the old
    creator's supporters (and [supporterCount]); the next game credits the
    new creator and adds the player to its supporters, so the player counts
    as a supporter of both. *)
Theorem switch_then_submit_supports_both t u c0 c1 d d1 d2 clk sid ta r pk e0 :
  c0 <> c1 ->
  picks d !! (currentCycleId clk, u) = Some pk -> p_creatorId pk = c0 ->
  leaderboard d !! (currentCycleId clk, c0) = Some e0 -> u ∈ supporters e0 ->
  handlePickCreator t (currentCycleId clk) (Some u) c1 d = (Ok tt, d1) ->
  submitGameResult clk (Some u) sid ta d1 = (Ok r, d2) ->
  r.2 = c1 /\ leaderboard d2 !! (currentCycleId clk, c0) = Some e0 /\ u ∈ supporters e0 /\
  exists e1, leaderboard d2 !! (currentCycleId clk, c1) = Some e1 /\ u ∈ supporters e1.
Proof.
  intros Hne Hpk Hc0 He0 Hin Hh Hsub.
  unfold handlePickCreator in Hh; unfold_monad; cbn in Hh. rewrite Hpk in Hh; cbn in Hh.
  rewrite Hpk in Hh; cbn in Hh. injection Hh as <-.
  destruct (submitGameResult_ok_inv _ _ _ _ _ _ _ Hsub)
    as (s & v & pk' & ud & e' & rl & _ & _ & _ & Hpk' & _ & -> & _ & _ & Hlb & _ & Hsup & _).
  cbn in Hpk'. rewrite lookup_insert_eq in Hpk'. injection Hpk' as <-. cbn in *.
  split; [reflexivity|]. rewrite Hlb. split; [|split; [exact Hin|]].
  - rewrite lookup_insert_ne; [exact He0|congruence].
  - exists e'. split; [apply lookup_insert_eq|exact Hsup].
Qed.

(** Re-running [manualAwardPityPoints] for a cycle after a player has
    claimed the pity point of its winner link rewrites the player's
    eligibility as unclaimed, so a second click is credited again: the
    player's pick gains two points in all. *)
Theorem manualAwardPityPoints_reopens_claim clk1 clk2 clk3 K u url w d d1 pk :
  K <> ""%string ->
  cycleWinners d !! K = Some w ->
  picks d !! (K, u) = Some pk -> p_creatorId pk <> winnerId w ->
  clickWinnerLink clk1 (Some u) K url d = (Ok (Applied 1), d1) ->
  exists d3,
    clickWinnerLink clk3 (Some u) K url (snd (manualAwardPityPoints clk2 (Some K) d1)) =
      (Ok (Applied 1), d3) /\
    picks d3 !! (K, u) = Some (add_pick_points 1 (add_pick_points 1 pk)).
Proof.
  intros HK Hw Hpk Hne Hc.
  rewrite clickWinnerLink_cases in Hc.
  destruct (pityPointsEligible d !! (K, u)) as [el|]; [|discriminate].
  destruct (negb (eligibleForPityPoint el)); [discriminate|].
  destruct (clickedWinnerLink el); [discriminate|].
  rewrite Hpk in Hc.
  destruct (leaderboard d !! (K, p_creatorId pk)) as [e|] eqn:He; [|discriminate].
  injection Hc as <-.
  unfold manualAwardPityPoints, or_current, or_default.
  rewrite (proj2 (String.eqb_neq K "") HK).
  unfold bind at 1, gets. cbn [cycleWinners set_pityPointsEligible set_picks set_leaderboard].
  rewrite Hw. cbn [snd].
  rewrite clickWinnerLink_cases.
  destruct (issue_pity_eligible K (winnerId w)
    (set_pityPointsEligible (<[(K, u) := mark_clicked (now clk1) el]> (pityPointsEligible d))
       (set_picks (<[(K, u) := add_pick_points 1 pk]> (picks d))
          (set_leaderboard (<[(K, p_creatorId pk) := add_total 1 e]> (leaderboard d)) d)))
    u (add_pick_points 1 pk)) as [Hel _].
  - cbn. apply lookup_insert_eq.
  - exact Hne.
  - rewrite Hel. cbn. rewrite lookup_insert_eq. cbn. rewrite lookup_insert_eq.
    eexists; split; [reflexivity|]. cbn. apply lookup_insert_eq.
Qed.

Lemma segment_app u rest :
  Forall (fun c => c <> "/"%char /\ c <> "?"%char) (list_ascii_of_string u) ->
  segment (u +:+ rest) = u +:+ segment rest.
Proof.
  induction u as [|c u IH]; [reflexivity|]. intros Hf. inversion Hf as [|? ? [H1 H2] Hf']; subst.
  simpl. destruct (Ascii.eqb_spec c "/"); [contradiction|].
  destruct (Ascii.eqb_spec c "?"); [contradiction|]. simpl.
  rewrite IH by exact Hf'. reflexivity.
Qed.

Lemma segment_boundary rest :
  (rest = ""%string \/ exists q, rest = String "/" q \/ rest = String "?" q) -> segment rest = ""%string.
Proof. intros [->|(q & [->| ->])]; reflexivity. Qed.

Lemma ascii_upper_dot b : ascii_upper b = "."%char -> b = "."%char.
Proof.
  destruct b as [[] [] [] [] [] [] [] []]; vm_compute; intros H;
    first [reflexivity | discriminate | exact H].
Qed.

Lemma prefix_ci_dot p s :
  In "."%char (list_ascii_of_string p) -> prefix_ci p s = true -> In "."%char (list_ascii_of_string s).
Proof.
  revert s. induction p as [|a p IH]; intros s Hin Hp; [destruct Hin|].
  destruct s as [|b s]; [discriminate|]. cbn in Hp |- *.
  apply andb_prop in Hp as [Hab Hp]. apply Ascii.eqb_eq in Hab.
  destruct Hin as [Ha|Hin].
  - subst a. left. apply ascii_upper_dot. rewrite <- Hab. reflexivity.
  - right. exact (IH s Hin Hp).
Qed.

Lemma match_group_no_dot p s :
  In "."%char (list_ascii_of_string p) -> ~ In "."%char (list_ascii_of_string s) ->
  match_group p s = None.
Proof.
  intros Hp. induction s as [|a s IH]; intros Hs.
  - cbn. destruct (prefix_ci p "") eqn:Hpre; [|reflexivity].
    exfalso. exact (Hs (prefix_ci_dot _ _ Hp Hpre)).
  - cbn [match_group]. destruct (prefix_ci p (String a s)) eqn:Hpre.
    + exfalso. exact (Hs (prefix_ci_dot _ _ Hp Hpre)).
    + apply IH. intros H. apply Hs. right. exact H.
Qed.

Lemma string_app_nil_r s : (s +:+ "")%string = s.
Proof.
  induction s as [|c s IH]; [reflexivity|].
  change (String c s +:+ "")%string with (String c (s +:+ "")). rewrite IH. reflexivity.
Qed.

Lemma string_app_nil_l s : ("" +:+ s)%string = s.
Proof. reflexivity. Qed.

Lemma segment_whole u rest :
  Forall (fun c => c <> "/"%char /\ c <> "?"%char) (list_ascii_of_string u) ->
  (rest = ""%string \/ exists q, rest = String "/" q \/ rest = String "?" q) ->
  segment (u +:+ rest) = u.
Proof. intros Hf Hr. rewrite segment_app, segment_boundary by assumption. apply string_app_nil_r. Qed.


(** The YouTube URL forms [<scheme>youtube.com/channel/<id>],
    [<scheme>youtube.com/@<handle>] and [<scheme>youtube.com/c/<name>], for
    the usual schemes and a path or query after the name, select the API
    request by channel id, respectively by handle with the name as handle;
    for the last two, when neither the name nor what follows contains a
    dot (a dot would let a later [youtube.com/...] in the URL match). *)
Theorem youtube_api_url_forms scheme u rest k :
  In scheme ["https://www."; "https://"; "http://www."; "http://"; "www."; ""; "https://m."]%string ->
  u <> ""%string -> Forall (fun c => c <> "/"%char /\ c <> "?"%char) (list_ascii_of_string u) ->
  (rest = ""%string \/ exists q, rest = String "/" q \/ rest = String "?" q) ->
  youtube_api_url (scheme +:+ "youtube.com/channel/" +:+ u +:+ rest) k =
    Some ("https://www.googleapis.com/youtube/v3/channels?part=snippet,statistics&id=" +:+ u +:+ "&key=" +:+ k)%string /\
  (~ In "."%char (list_ascii_of_string (u +:+ rest)) ->
   youtube_api_url (scheme +:+ "youtube.com/@" +:+ u +:+ rest) k =
     Some ("https://www.googleapis.com/youtube/v3/channels?part=snippet,statistics&forHandle=" +:+ u +:+ "&key=" +:+ k)%string /\
   youtube_api_url (scheme +:+ "youtube.com/c/" +:+ u +:+ rest) k =
     Some ("https://www.googleapis.com/youtube/v3/channels?part=snippet,statistics&forHandle=" +:+ u +:+ "&key=" +:+ k)%string).
Proof.
  intros Hs Hu Hf Hr. pose proof (segment_whole u rest Hf Hr) as Hseg.
  destruct Hs as [<-|[<-|[<-|[<-|[<-|[<-|[<-|[]]]]]]]].
  all: split; [|intros Hnd; split].
  all: unfold youtube_api_url; simpl; rewrite ?string_app_nil_l.
  all: repeat rewrite (match_group_no_dot _ (u +:+ rest))
         by (first [exact Hnd | cbn; repeat (first [left; reflexivity | right])]).
  all: rewrite Hseg; destruct u as [|a u']; [congruence|reflexivity].
Qed.

(** For a channel URL [<scheme>twitch.tv/<login><rest>] (usual schemes;
    a login without '/' or '?'; [rest] empty or starting with '/' or '?'),
    [getTwitchChannelData] requests the users endpoint for exactly that
    login and returns the first user's display name, picture and
    description (empty when missing), when the rate limiter admits the call,
    the credentials are set and both requests succeed. *)
Theorem getTwitchChannelData_looks_up_login clk env ctx ip d scheme u rest clientId clientSecret
    tok user others :
  In scheme ["https://www."; "https://"; "http://www."; "http://"; "www."; ""; "https://m."]%string ->
  u <> ""%string -> Forall (fun c => c <> "/"%char /\ c <> "?"%char) (list_ascii_of_string u) ->
  (rest = ""%string \/ exists q, rest = String "/" q \/ rest = String "?" q) ->
  truthy (TWITCH_CLIENT_ID env) = Some clientId ->
  truthy (TWITCH_CLIENT_SECRET env) = Some clientSecret ->
  fetch_token env ("client_id=" +:+ clientId +:+ "&client_secret=" +:+ clientSecret
                   +:+ "&grant_type=client_credentials") = Some (true, tok) ->
  fetch_users env ("https://api.twitch.tv/helix/users?login=" +:+ u) clientId
    ("Bearer " +:+ template tok) = Some (true, Some (user :: others)) ->
  fst (checkRateLimit clk (match ctx with Some uid => uid | None => ip end)
         "getTwitchChannelData" 5 10 d) = Ok tt ->
  fst (getTwitchChannelData clk env ctx ip (Some (scheme +:+ "twitch.tv/" +:+ u +:+ rest)) d) =
    Ok (mkChannelData (display_name user) (Some (profile_image_url user))
          (default "" (truthy (tu_description user))) None None).
Proof.
  intros Hs Hu Hf Hr Hid Hsec Htok Husers Hrl.
  pose proof (segment_whole u rest Hf Hr) as Hseg.
  assert (Hurl : truthy (Some (scheme +:+ "twitch.tv/" +:+ u +:+ rest)) =
                 Some (scheme +:+ "twitch.tv/" +:+ u +:+ rest)).
  { destruct Hs as [<-|[<-|[<-|[<-|[<-|[<-|[<-|[]]]]]]]]; reflexivity. }
  assert (Hm : match_group "twitch.tv/" (scheme +:+ "twitch.tv/" +:+ u +:+ rest) = Some u).
  { destruct Hs as [<-|[<-|[<-|[<-|[<-|[<-|[<-|[]]]]]]]].
    all: simpl; rewrite ?string_app_nil_l, Hseg; destruct u as [|a u']; [congruence|reflexivity]. }
  unfold getTwitchChannelData. rewrite Hurl.
  destruct (checkRateLimit_cases clk (match ctx with Some uid => uid | None => ip end)
              "getTwitchChannelData" 5 10 d) as [[m Hc]|[rl Hc]]; rewrite Hc in Hrl; [discriminate|].
  unfold bind at 1. rewrite Hc. rewrite Hid, Hsec, Hm, Htok, Husers. reflexivity.
Qed.


(** ** The properties at concrete inputs *)

Lemma calculateCycleWinner_settles_starting_cycle_witness :
  (1762905600000 mod msPerDay = 0 /\ 0 <= 1000 < msPerDay /\
   cycleWinners (snd (calculateCycleWinner (server_clock (1762905600000 + 1000)) db_alice_played))
     !! K1 <> cycleWinners db_alice_played !! K1) /\
  (K1 = getCycleId 0 1762905600000 /\
   (forall t, 1762905600000 <= t < 1762905600000 + msPerDay -> getCycleId 0 t = K1) /\
   (forall t, 1762905600000 - msPerDay <= t < 1762905600000 -> getCycleId 0 t <> K1)).
Proof.
  assert (H1 : 1762905600000 mod msPerDay = 0) by reflexivity.
  assert (H2 : 0 <= 1000 < msPerDay) by (unfold msPerDay; lia).
  assert (H3 : cycleWinners (snd (calculateCycleWinner (server_clock (1762905600000 + 1000)) db_alice_played))
     !! K1 <> cycleWinners db_alice_played !! K1) by (vm_compute; congruence).
  split; [exact (conj H1 (conj H2 H3))|].
  apply (calculateCycleWinner_settles_starting_cycle 1762905600000 1000 db_alice_played K1 H1 H2 H3).
Defined.

Lemma applyPityPoints_never_commits_witness :
  (pityPoints db_pity_pending !! (K0, "alice") = Some (mkPity false false None) /\
   appliedToNextCycle (mkPity false false None) = false /\
   picks db_pity_pending !! (currentCycleId (clk_at 2000000), "alice") =
     Some (mkPick "alice" "carol" 0 1300000 1300000 0) /\
   leaderboard db_pity_pending !! (currentCycleId (clk_at 2000000), p_creatorId (mkPick "alice" "carol" 0 1300000 1300000 0)) =
     Some (mkEntry "carol" 0 1 ["alice"] (TNumber 1200000) (TNumber 1200000))) /\
  applyPityPoints (clk_at 2000000) (Some "alice") K0 "erin" db_pity_pending =
    (Throw (Internal "Firestore transactions require all reads to be executed before all writes."),
     db_pity_pending).
Proof.
  assert (H : pityPoints db_pity_pending !! (K0, "alice") = Some (mkPity false false None) /\
   appliedToNextCycle (mkPity false false None) = false /\
   picks db_pity_pending !! (currentCycleId (clk_at 2000000), "alice") =
     Some (mkPick "alice" "carol" 0 1300000 1300000 0) /\
   leaderboard db_pity_pending !! (currentCycleId (clk_at 2000000), p_creatorId (mkPick "alice" "carol" 0 1300000 1300000 0)) =
     Some (mkEntry "carol" 0 1 ["alice"] (TNumber 1200000) (TNumber 1200000)))
    by (split_and!; reflexivity).
  split; [exact H|]. destruct H as (Ha & Hb & Hc & Hd).
  exact (proj1 (applyPityPoints_never_commits _ _ _ _ _ _ _ _ Ha Hb Hc Hd)).
Defined.

Lemma checkRateLimit_retry_minutes_witness :
  (rateLimits db_rl_full !! rl_key "alice" "submitGameResult" = Some (mkRate 1000000 30 1100000) /\
   windowStart (mkRate 1000000 30 1100000) <= now (clk_at 1200000)) /\
  fst (checkRateLimit (clk_at 1200000) "alice" "submitGameResult" 30 60 db_rl_full) =
    Throw (ResourceExhausted 57) /\
  exists m, ResourceExhausted 57 = ResourceExhausted m /\ 1 <= m <= 60 /\
    snd (checkRateLimit (clk_at 1200000) "alice" "submitGameResult" 30 60 db_rl_full) = db_rl_full.
Proof.
  assert (Ha : rateLimits db_rl_full !! rl_key "alice" "submitGameResult" = Some (mkRate 1000000 30 1100000))
    by reflexivity.
  assert (Hb : windowStart (mkRate 1000000 30 1100000) <= now (clk_at 1200000)) by (cbn; lia).
  assert (Hc : fst (checkRateLimit (clk_at 1200000) "alice" "submitGameResult" 30 60 db_rl_full) =
    Throw (ResourceExhausted 57)) by reflexivity.
  split; [split; assumption|]. split; [exact Hc|].
  exact (checkRateLimit_retry_minutes (clk_at 1200000) "alice" "submitGameResult" 30 60 db_rl_full
    _ _ _ Ha Hb (surjective_pairing _) _ Hc).
Defined.

Lemma cleanupExpiredSessions_deletes_only_expired_unused_witness :
  gameSessions db_alice !! "s1" = Some session_s1 /\
  (fst (cleanupExpiredSessions (clk_at 1700000) db_alice) = Ok tt /\
   set_gameSessions (gameSessions db_alice) (snd (cleanupExpiredSessions (clk_at 1700000) db_alice)) = db_alice /\
   (s_used session_s1 = true \/ now (clk_at 1700000) <= s_expiresAt session_s1 ->
      gameSessions (snd (cleanupExpiredSessions (clk_at 1700000) db_alice)) !! "s1" = Some session_s1) /\
   (s_used session_s1 = false -> s_expiresAt session_s1 < now (clk_at 1700000) ->
      gameSessions (snd (cleanupExpiredSessions (clk_at 1700000) db_alice)) !! "s1" = None)).
Proof.
  assert (H : gameSessions db_alice !! "s1" = Some session_s1) by reflexivity.
  split; [exact H|].
  exact (cleanupExpiredSessions_deletes_only_expired_unused (clk_at 1700000) db_alice "s1" session_s1 H).
Defined.

Lemma startGameSession_cleanup_lifetime_witness :
  startGameSession (clk_at 1020000) (Some "alice") "s2" "whackAMole" None db_alice_played =
    (Ok "s2", db_alice_s2) /\
  gameSessions (snd (cleanupExpiredSessions (clk_at 1620000) db_alice_s2)) !! "s2" =
    gameSessions db_alice_s2 !! "s2" /\
  gameSessions (snd (cleanupExpiredSessions (clk_at 1620001) db_alice_s2)) !! "s2" = None.
Proof.
  assert (H : startGameSession (clk_at 1020000) (Some "alice") "s2" "whackAMole" None db_alice_played =
    (Ok "s2", db_alice_s2)) by (vm_compute; reflexivity).
  split; [exact H|]. split.
  - refine (proj1 (proj1 (startGameSession_cleanup_lifetime _ (clk_at 1620000) _ _ _ _ _ _ H) _)).
    cbn; lia.
  - refine (proj2 (startGameSession_cleanup_lifetime _ (clk_at 1620001) _ _ _ _ _ _ H) _).
    cbn; lia.
Defined.

Lemma startGameSession_then_submitGameResult_witness :
  (startGameSession (clk_at 1020000) (Some "alice") "s2" "whackAMole" None db_alice_played =
     (Ok "s2", db_alice_s2) /\
   GAME_VALIDATION "whackAMole" = Some (mkValidation (Qmake 3 1) (Qmake 120 1) 3) /\
   (minSeconds (mkValidation (Qmake 3 1) (Qmake 120 1) 3) <=
      inject_Z (now (clk_at 1030000) - now (clk_at 1020000)) / inject_Z 1000 <=
    maxSeconds (mkValidation (Qmake 3 1) (Qmake 120 1) 3))%Q /\
   fst (checkRateLimit (clk_at 1030000) "alice" "submitGameResult" 30 60 db_alice_s2) = Ok () /\
   picks db_alice_played !! (currentCycleId (clk_at 1030000), "alice") = Some (mkPick "alice" "bob" 3 0 0 0) /\
   is_Some (users db_alice_played !! "alice")) /\
  fst (submitGameResult (clk_at 1030000) (Some "alice") "s2" 7 db_alice_s2) = Ok (3, "bob").
Proof.
  assert (H1 : startGameSession (clk_at 1020000) (Some "alice") "s2" "whackAMole" None db_alice_played =
     (Ok "s2", db_alice_s2)) by (vm_compute; reflexivity).
  assert (H2 : GAME_VALIDATION "whackAMole" = Some (mkValidation (Qmake 3 1) (Qmake 120 1) 3))
    by reflexivity.
  assert (H3 : (minSeconds (mkValidation (Qmake 3 1) (Qmake 120 1) 3) <=
      inject_Z (now (clk_at 1030000) - now (clk_at 1020000)) / inject_Z 1000 <=
    maxSeconds (mkValidation (Qmake 3 1) (Qmake 120 1) 3))%Q)
    by (split; apply Qle_bool_imp_le; reflexivity).
  assert (H4 : fst (checkRateLimit (clk_at 1030000) "alice" "submitGameResult" 30 60 db_alice_s2) = Ok ())
    by (vm_compute; reflexivity).
  assert (H5 : picks db_alice_played !! (currentCycleId (clk_at 1030000), "alice") =
    Some (mkPick "alice" "bob" 3 0 0 0)) by (vm_compute; reflexivity).
  assert (H6 : is_Some (users db_alice_played !! "alice")) by (vm_compute; eexists; reflexivity).
  split; [exact (conj H1 (conj H2 (conj H3 (conj H4 (conj H5 H6)))))|].
  exact (startGameSession_then_submitGameResult _ _ _ _ _ _ 7 _ _ _ _ H1 H2 H3 H4 H5 H6).
Defined.

Lemma submitGameResult_without_user_doc_witness :
  users db_no_alice !! "alice" = None /\
  exists e rl, submitGameResult (clk_at 1010000) (Some "alice") "s1" 5 db_no_alice =
    (Throw e, set_rateLimits rl db_no_alice).
Proof.
  assert (H : users db_no_alice !! "alice" = None) by reflexivity.
  split; [exact H|]. exact (submitGameResult_without_user_doc _ _ _ _ _ H).
Defined.

Lemma submitGameResult_success_effects_witness :
  submitGameResult (clk_at 1010000) (Some "alice") "s1" 5 db_alice = (Ok (3, "bob"), db_alice_played) /\
  exists s v pk ud e' rl,
    gameSessions db_alice !! "s1" = Some s /\ s_used s = false /\
    GAME_VALIDATION (s_gameType s) = Some v /\
    picks db_alice !! (currentCycleId (clk_at 1010000), "alice") = Some pk /\ users db_alice !! "alice" = Some ud /\
    (3, "bob") = (points v, p_creatorId pk) /\
    gameSessions db_alice_played = <["s1" := mark_used s]> (gameSessions db_alice) /\
    picks db_alice_played = <[(currentCycleId (clk_at 1010000), "alice") := add_pick_points (points v) pk]> (picks db_alice) /\
    leaderboard db_alice_played = <[(currentCycleId (clk_at 1010000), p_creatorId pk) := e']> (leaderboard db_alice) /\
    totalPoints e' = entry_points (currentCycleId (clk_at 1010000)) (p_creatorId pk) (leaderboard db_alice) + points v /\
    "alice" ∈ supporters e' /\
    users db_alice_played = <["alice" := add_user_stats (points v) ud]> (users db_alice) /\
    gameResults db_alice_played = gameResults db_alice ++
      [mkResult "alice" "s1" (currentCycleId (clk_at 1010000)) (s_gameType s) (points v) 5 (now (clk_at 1010000)) (p_creatorId pk)] /\
    rateLimits db_alice_played = rl /\
    pityPointsEligible db_alice_played = pityPointsEligible db_alice /\ pityPoints db_alice_played = pityPoints db_alice /\
    startingBonuses db_alice_played = startingBonuses db_alice /\ cycleWinners db_alice_played = cycleWinners db_alice.
Proof.
  assert (H : submitGameResult (clk_at 1010000) (Some "alice") "s1" 5 db_alice =
    (Ok (3, "bob"), db_alice_played)) by (vm_compute; reflexivity).
  split; [exact H|]. exact (submitGameResult_success_effects _ _ _ _ _ _ _ H).
Defined.

Lemma switch_then_submit_supports_both_witness :
  ("bob" <> "carol" /\
   picks db_alice_s2 !! (currentCycleId (clk_at 1035000), "alice") = Some (mkPick "alice" "bob" 3 0 0 0) /\
   p_creatorId (mkPick "alice" "bob" 3 0 0 0) = "bob" /\
   leaderboard db_alice_s2 !! (currentCycleId (clk_at 1035000), "bob") =
     Some (mkEntry "bob" 3 1 ["alice"] (TTimestamp 1010000) (TTimestamp 1010000)) /\
   "alice" ∈ supporters (mkEntry "bob" 3 1 ["alice"] (TTimestamp 1010000) (TTimestamp 1010000)) /\
   handlePickCreator 1025000 (currentCycleId (clk_at 1035000)) (Some "alice") "carol" db_alice_s2 =
     (Ok tt, snd (handlePickCreator 1025000 K1 (Some "alice") "carol" db_alice_s2)) /\
   submitGameResult (clk_at 1035000) (Some "alice") "s2" 10
       (snd (handlePickCreator 1025000 K1 (Some "alice") "carol" db_alice_s2)) =
     (Ok (3, "carol"), snd (submitGameResult (clk_at 1035000) (Some "alice") "s2" 10
       (snd (handlePickCreator 1025000 K1 (Some "alice") "carol" db_alice_s2))))) /\
  exists e1, leaderboard (snd (submitGameResult (clk_at 1035000) (Some "alice") "s2" 10
       (snd (handlePickCreator 1025000 K1 (Some "alice") "carol" db_alice_s2)))) !! (K1, "carol") = Some e1 /\
    "alice" ∈ supporters e1.
Proof.
  assert (H1 : "bob" <> "carol") by discriminate.
  assert (H2 : picks db_alice_s2 !! (currentCycleId (clk_at 1035000), "alice") =
    Some (mkPick "alice" "bob" 3 0 0 0)) by (vm_compute; reflexivity).
  assert (H3 : p_creatorId (mkPick "alice" "bob" 3 0 0 0) = "bob") by reflexivity.
  assert (H4 : leaderboard db_alice_s2 !! (currentCycleId (clk_at 1035000), "bob") =
     Some (mkEntry "bob" 3 1 ["alice"] (TTimestamp 1010000) (TTimestamp 1010000)))
    by (vm_compute; reflexivity).
  assert (H5 : "alice" ∈ supporters (mkEntry "bob" 3 1 ["alice"] (TTimestamp 1010000) (TTimestamp 1010000)))
    by (cbn; left).
  assert (H6 : handlePickCreator 1025000 (currentCycleId (clk_at 1035000)) (Some "alice") "carol" db_alice_s2 =
     (Ok tt, snd (handlePickCreator 1025000 K1 (Some "alice") "carol" db_alice_s2)))
    by (vm_compute; reflexivity).
  assert (H7 : submitGameResult (clk_at 1035000) (Some "alice") "s2" 10
       (snd (handlePickCreator 1025000 K1 (Some "alice") "carol" db_alice_s2)) =
     (Ok (3, "carol"), snd (submitGameResult (clk_at 1035000) (Some "alice") "s2" 10
       (snd (handlePickCreator 1025000 K1 (Some "alice") "carol" db_alice_s2)))))
    by (vm_compute; reflexivity).
  split; [exact (conj H1 (conj H2 (conj H3 (conj H4 (conj H5 (conj H6 H7))))))|].
  exact (proj2 (proj2 (proj2 (switch_then_submit_supports_both _ _ _ _ _ _ _ _ _ _ _ _ _
    H1 H2 H3 H4 H5 H6 H7)))).
Defined.

Lemma manualAwardPityPoints_reopens_claim_witness :
  (K0 <> ""%string /\
   cycleWinners db_redeem_settled !! K0 =
     Some (mkWinner "erin" "Erin" "" "" 9 2 (TTimestamp 20000) 0 "2025-11-11" 0) /\
   picks db_redeem_settled !! (K0, "alice") = Some (mkPick "alice" "bob" 3 0 0 0) /\
   p_creatorId (mkPick "alice" "bob" 3 0 0 0) <>
     winnerId (mkWinner "erin" "Erin" "" "" 9 2 (TTimestamp 20000) 0 "2025-11-11" 0) /\
   clickWinnerLink (clk_at 2000000) (Some "alice") K0 "https://erin.example" db_redeem_settled =
     (Ok (Applied 1), snd (clickWinnerLink (clk_at 2000000) (Some "alice") K0 "https://erin.example"
                            db_redeem_settled))) /\
  exists d3,
    clickWinnerLink (clk_at 2200000) (Some "alice") K0 "https://erin.example"
      (snd (manualAwardPityPoints (clk_at 2100000) (Some K0)
         (snd (clickWinnerLink (clk_at 2000000) (Some "alice") K0 "https://erin.example"
                 db_redeem_settled)))) = (Ok (Applied 1), d3) /\
    picks d3 !! (K0, "alice") = Some (add_pick_points 1 (add_pick_points 1 (mkPick "alice" "bob" 3 0 0 0))).
Proof.
  assert (H1 : K0 <> ""%string) by discriminate.
  assert (H2 : cycleWinners db_redeem_settled !! K0 =
     Some (mkWinner "erin" "Erin" "" "" 9 2 (TTimestamp 20000) 0 "2025-11-11" 0)) by reflexivity.
  assert (H3 : picks db_redeem_settled !! (K0, "alice") = Some (mkPick "alice" "bob" 3 0 0 0))
    by reflexivity.
  assert (H4 : p_creatorId (mkPick "alice" "bob" 3 0 0 0) <>
     winnerId (mkWinner "erin" "Erin" "" "" 9 2 (TTimestamp 20000) 0 "2025-11-11" 0)) by discriminate.
  assert (H5 : clickWinnerLink (clk_at 2000000) (Some "alice") K0 "https://erin.example" db_redeem_settled =
     (Ok (Applied 1), snd (clickWinnerLink (clk_at 2000000) (Some "alice") K0 "https://erin.example"
                            db_redeem_settled))) by (vm_compute; reflexivity).
  split; [exact (conj H1 (conj H2 (conj H3 (conj H4 H5))))|].
  exact (manualAwardPityPoints_reopens_claim _ (clk_at 2100000) (clk_at 2200000) _ _ _ _ _ _ _
    H1 H2 H3 H4 H5).
Defined.

Lemma getTwitchChannelData_looks_up_login_witness :
  (In "https://www."%string ["https://www."; "https://"; "http://www."; "http://"; "www."; ""; "https://m."]%string /\
   "bobplays"%string <> ""%string /\
   Forall (fun c => c <> "/"%char /\ c <> "?"%char) (list_ascii_of_string "bobplays") /\
   ("?ref=home"%string = ""%string \/ exists q, "?ref=home"%string = String "/" q \/ "?ref=home"%string = String "?" q) /\
   truthy (TWITCH_CLIENT_ID twitch_env_demo) = Some "client"%string /\
   truthy (TWITCH_CLIENT_SECRET twitch_env_demo) = Some "secret"%string /\
   fetch_token twitch_env_demo ("client_id=" +:+ "client" +:+ "&client_secret=" +:+ "secret"
                   +:+ "&grant_type=client_credentials") = Some (true, Some "token"%string) /\
   fetch_users twitch_env_demo ("https://api.twitch.tv/helix/users?login=" +:+ "bobplays") "client"
     ("Bearer " +:+ template (Some "token"%string)) =
     Some (true, Some [mkTwitchUser "BobPlays" "https://img.example/bob.png" None]) /\
   fst (checkRateLimit (clk_at 2000000) "alice" "getTwitchChannelData" 5 10 db_alice) = Ok tt) /\
  fst (getTwitchChannelData (clk_at 2000000) twitch_env_demo (Some "alice") "10.0.0.1"
         (Some ("https://www." +:+ "twitch.tv/" +:+ "bobplays" +:+ "?ref=home")) db_alice) =
    Ok (mkChannelData "BobPlays" (Some "https://img.example/bob.png") "" None None).
Proof.
  assert (H1 : In "https://www."%string ["https://www."; "https://"; "http://www."; "http://"; "www."; ""; "https://m."]%string)
    by (left; reflexivity).
  assert (H2 : "bobplays"%string <> ""%string) by discriminate.
  assert (H3 : Forall (fun c => c <> "/"%char /\ c <> "?"%char) (list_ascii_of_string "bobplays"))
    by (cbn; repeat (apply List.Forall_cons; [split; discriminate|]); apply List.Forall_nil).
  assert (H4 : "?ref=home"%string = ""%string \/
               exists q, "?ref=home"%string = String "/" q \/ "?ref=home"%string = String "?" q)
    by (right; eexists; right; reflexivity).
  assert (H5 : truthy (TWITCH_CLIENT_ID twitch_env_demo) = Some "client"%string) by reflexivity.
  assert (H6 : truthy (TWITCH_CLIENT_SECRET twitch_env_demo) = Some "secret"%string) by reflexivity.
  assert (H7 : fetch_token twitch_env_demo ("client_id=" +:+ "client" +:+ "&client_secret=" +:+ "secret"
                   +:+ "&grant_type=client_credentials") = Some (true, Some "token"%string)) by reflexivity.
  assert (H8 : fetch_users twitch_env_demo ("https://api.twitch.tv/helix/users?login=" +:+ "bobplays") "client"
     ("Bearer " +:+ template (Some "token"%string)) =
     Some (true, Some [mkTwitchUser "BobPlays" "https://img.example/bob.png" None])) by reflexivity.
  assert (H9 : fst (checkRateLimit (clk_at 2000000) "alice" "getTwitchChannelData" 5 10 db_alice) = Ok tt)
    by reflexivity.
  split; [exact (conj H1 (conj H2 (conj H3 (conj H4 (conj H5 (conj H6 (conj H7 (conj H8 H9))))))))|].
  exact (getTwitchChannelData_looks_up_login (clk_at 2000000) twitch_env_demo (Some "alice") "10.0.0.1"
    db_alice _ _ _ _ _ _ _ [] H1 H2 H3 H4 H5 H6 H7 H8 H9).
Defined.

Lemma youtube_api_url_forms_witness :
  (In "https://"%string ["https://www."; "https://"; "http://www."; "http://"; "www."; ""; "https://m."]%string /\
   "bob.plays"%string <> ""%string /\
   Forall (fun c => c <> "/"%char /\ c <> "?"%char) (list_ascii_of_string "bob.plays") /\
   ("/videos"%string = ""%string \/ exists q, "/videos"%string = String "/" q \/ "/videos"%string = String "?" q)) /\
  youtube_api_url ("https://" +:+ "youtube.com/channel/" +:+ "bob.plays" +:+ "/videos") "KEY" =
    Some ("https://www.googleapis.com/youtube/v3/channels?part=snippet,statistics&id=" +:+ "bob.plays" +:+ "&key=" +:+ "KEY")%string.
Proof.
  assert (H1 : In "https://"%string ["https://www."; "https://"; "http://www."; "http://"; "www."; ""; "https://m."]%string)
    by (right; left; reflexivity).
  assert (H2 : "bob.plays"%string <> ""%string) by discriminate.
  assert (H3 : Forall (fun c => c <> "/"%char /\ c <> "?"%char) (list_ascii_of_string "bob.plays"))
    by (cbn; repeat (apply List.Forall_cons; [split; discriminate|]); apply List.Forall_nil).
  assert (H4 : "/videos"%string = ""%string \/
               exists q, "/videos"%string = String "/" q \/ "/videos"%string = String "?" q)
    by (right; eexists; left; reflexivity).
  split; [exact (conj H1 (conj H2 (conj H3 H4)))|].
  exact (proj1 (youtube_api_url_forms _ _ _ "KEY" H1 H2 H3 H4)).
Defined.
